(** * Transparent-redirect TCP handler: a shallow embedding and its properties

    The development embeds the two source files of the redirect handler:

    - the darwin original-destination resolver ([LocalToRemote],
      [PfctlLookup], [lookup], [convertPortToInt]);
    - the connection handler ([Handle], [handleHTTP], [handleHTTPS],
      [getServerName], [checkRateLimit]).

    Go strings and byte slices are sequences of octets; both are embedded
    as [string], whose characters are the 256 values of [ascii].  Go's
    [int] is embedded as [Z].  A Go function that may panic returns an
    [outcome]; a Go value of type [error] is an [option error] (nil is
    [None]). *)

From Stdlib Require Import String Ascii List ZArith Lia Bool Arith.
From Stdlib Require Import DecimalString.
From Stdlib Require DecimalPos.
Import ListNotations.

Open Scope list_scope.
Open Scope string_scope.

(** ** Errors, panics *)

(** A Go error value, identified by its message. *)
Inductive error : Type :=
| Errorf (msg : string).

(** What a Go call does: it returns, or it panics (the panic unwinds the
    goroutine; nothing in the two files recovers). *)
Inductive outcome (A : Type) : Type :=
| Return (a : A)
| Panic (v : string).

Arguments Return {A} a.
Arguments Panic {A} v.

Definition bind {A B : Type} (m : outcome A) (k : A -> outcome B) : outcome B :=
  match m with
  | Return a => k a
  | Panic v => Panic v
  end.

Notation "'do' x <- m ; k" := (bind m (fun x => k))
  (at level 10, x name, m at level 100, k at level 200).

(** [l[i]] of Go: a run-time panic when [i] is out of range. *)
Definition index {A : Type} (l : list A) (i : nat) : outcome A :=
  match nth_error l i with
  | Some a => Return a
  | None => Panic "runtime error: index out of range"
  end.

(** ** The Go library functions the resolver calls *)

Module strings.

(** [strings.HasPrefix]. *)
Fixpoint HasPrefix (s prefix : string) : bool :=
  match prefix with
  | EmptyString => true
  | String p prefix' =>
      match s with
      | EmptyString => false
      | String c s' => Ascii.eqb c p && HasPrefix s' prefix'
      end
  end.

(** [strings.Contains]: [substr] occurs at some position of [s]. *)
Fixpoint Contains (s substr : string) : bool :=
  HasPrefix s substr
  || match s with
     | EmptyString => false
     | String _ s' => Contains s' substr
     end.

(** [strings.Split] at a one-byte separator, the only use the source
    makes of it.  The result is never empty. *)
Fixpoint Split (s : string) (sep : ascii) : list string :=
  match s with
  | EmptyString => [EmptyString]
  | String c s' =>
      if Ascii.eqb c sep then EmptyString :: Split s' sep
      else match Split s' sep with
           | x :: xs => String c x :: xs
           | [] => [String c EmptyString]
           end
  end.

Definition octets (l : list nat) : string :=
  string_of_list_ascii (map ascii_of_nat l).

(** The white-space runes of [unicode.IsSpace], in UTF-8.  The first
    six are the ASCII ones; the others are U+0085, U+00A0, U+1680,
    U+2000..U+200A, U+2028, U+2029, U+202F, U+205F and U+3000. *)
Definition asciiSpace : list nat := [9; 10; 11; 12; 13; 32].

Definition wideSpace : list string :=
  map octets
    ([[194; 133]; [194; 160]; [225; 154; 128]]
     ++ map (fun k => [226; 128; 128 + k]) (seq 0 11)
     ++ [[226; 128; 168]; [226; 128; 169]; [226; 128; 175];
         [226; 129; 159]; [227; 128; 128]])%list.

(** Number of octets of the white-space rune [s] starts with; 0 when
    [s] does not start with one.  A rune of [wideSpace] starts with a
    UTF-8 lead octet, which the decoder never takes for the inside of
    another rune, so looking for it at every octet finds the same
    runes as decoding does. *)
Definition spaceWidth (s : string) : nat :=
  match s with
  | EmptyString => 0
  | String c _ =>
      if existsb (Nat.eqb (nat_of_ascii c)) asciiSpace then 1
      else match find (HasPrefix s) wideSpace with
           | Some w => String.length w
           | None => 0
           end
  end.

Definition flush (cur : string) : list string :=
  match cur with
  | EmptyString => []
  | _ => [cur]
  end.

(** [skip] counts the octets of a white-space rune still to pass;
    [cur] is the field being collected. *)
Fixpoint fieldsFrom (s : string) (skip : nat) (cur : string) : list string :=
  match s with
  | EmptyString => flush cur
  | String c s' =>
      match skip with
      | S k => fieldsFrom s' k cur
      | O =>
          match spaceWidth s with
          | O => fieldsFrom s' 0 (cur ++ String c EmptyString)
          | S w => (flush cur ++ fieldsFrom s' w EmptyString)%list
          end
      end
  end.

(** [strings.Fields]: the maximal runs of octets free of white space. *)
Definition Fields (s : string) : list string := fieldsFrom s 0 EmptyString.

End strings.

Module strconv.

Definition maxInt : Z := 2 ^ 63 - 1.
Definition minInt : Z := - 2 ^ 63.

Definition isDigit (c : ascii) : bool :=
  (48 <=? nat_of_ascii c)%nat && (nat_of_ascii c <=? 57)%nat.

(** Value of a run of decimal digits, [None] when an octet is not one. *)
Fixpoint digits (s : string) (acc : Z) : option Z :=
  match s with
  | EmptyString => Some acc
  | String c s' =>
      if isDigit c
      then digits s' (10 * acc + (Z.of_nat (nat_of_ascii c) - 48))
      else None
  end.

(** The fast path of [Atoi], for texts that cannot overflow: an
    optional sign, then at least one digit; [None] is the syntax
    error. *)
Definition signedDecimal (s : string) : option Z :=
  match s with
  | EmptyString => None
  | String c s' =>
      if Ascii.eqb c "-" then
        match s' with
        | EmptyString => None
        | _ => option_map Z.opp (digits s' 0)
        end
      else if Ascii.eqb c "+" then
        match s' with
        | EmptyString => None
        | _ => digits s' 0
        end
      else digits s 0
  end.

(** The two errors of the parsers: [ErrSyntax] and [ErrRange]. *)
Inductive NumError : Type := ErrSyntax | ErrRange.

Definition maxUint64 : Z := 2 ^ 64 - 1.

(** The smallest number whose tenfold exceeds [maxUint64]. *)
Definition cutoff : Z := maxUint64 / 10 + 1.

(** The loop of [ParseUint] in base 10 and 64 bits, [n] being the
    number read so far.  An octet that is no digit ends it with 0 and
    the syntax error; a digit that takes the number past [maxUint64]
    ends it at once with [maxUint64] and the range error, whatever
    octets follow. *)
Fixpoint parseUintFrom (s : string) (n : Z) : Z * option NumError :=
  match s with
  | EmptyString => (n, None)
  | String c s' =>
      if isDigit c then
        let d := (Z.of_nat (nat_of_ascii c) - 48)%Z in
        if (cutoff <=? n)%Z then (maxUint64, Some ErrRange)
        else
          let n1 := (n * 10 + d)%Z in
          if (maxUint64 <? n1)%Z then (maxUint64, Some ErrRange)
          else parseUintFrom s' n1
      else (0%Z, Some ErrSyntax)
  end.

(** [ParseUint(s, 10, 0)]. *)
Definition ParseUint (s : string) : Z * option NumError :=
  match s with
  | EmptyString => (0%Z, Some ErrSyntax)
  | _ => parseUintFrom s 0
  end.

(** [ParseInt(s, 10, 0)]: the sign is picked off, the rest is read
    with [ParseUint]; its syntax error is passed on, a number out of
    the range of [int64] is replaced by the nearest bound. *)
Definition ParseInt (s : string) : Z * option NumError :=
  match s with
  | EmptyString => (0%Z, Some ErrSyntax)
  | String c s' =>
      let neg := Ascii.eqb c "-" in
      let digits := if Ascii.eqb c "+" || neg then s' else s in
      match ParseUint digits with
      | (_, Some ErrSyntax) => (0%Z, Some ErrSyntax)
      | (un, _) =>
          let cutoff := (2 ^ 63)%Z in
          if negb neg && (cutoff <=? un)%Z then ((cutoff - 1)%Z, Some ErrRange)
          else if neg && (cutoff <? un)%Z then ((- cutoff)%Z, Some ErrRange)
          else ((if neg then - un else un)%Z, None)
      end
  end.

Definition errorOf (e : NumError) : error :=
  match e with
  | ErrSyntax => Errorf "strconv.Atoi: invalid syntax"
  | ErrRange => Errorf "strconv.Atoi: value out of range"
  end.

(** [strconv.Atoi] on a 64-bit platform: the fast path for a text of 1
    to 18 octets, [ParseInt] for the others. *)
Definition Atoi (s : string) : Z * option error :=
  let sLen := String.length s in
  if (0 <? sLen)%nat && (sLen <? 19)%nat then
    match signedDecimal s with
    | Some n => (n, None)
    | None => (0%Z, Some (errorOf ErrSyntax))
    end
  else
    let '(i64, err) := ParseInt s in (i64, option_map errorOf err).

(** [strconv.Itoa], also the [%d] verb of [fmt.Sprintf]. *)
Definition Itoa (n : Z) : string := NilZero.string_of_int (Z.to_int n).

End strconv.

(** ** The darwin resolver (state-table lookup) *)

(** [convertPortToInt]: the parse error is printed and dropped; the
    value [strconv.Atoi] returned with it is the result. *)
Definition convertPortToInt (port : string) : Z :=
  fst (strconv.Atoi port).

(** What Go returns from [lookup]: host, port and error. *)
Definition resolved : Type := string * Z * option error.

(** The loop of [lookup] over the lines still to visit. *)
Fixpoint lookupLines (specv4 specv6 : string) (lines : list string)
  : outcome resolved :=
  match lines with
  | [] => Return ("", 0%Z, Some (Errorf "could not resolve original destination"))
  | line :: rest =>
      if strings.Contains line "ESTABLISHED:ESTABLISHED" then
        if strings.Contains line specv4 then
          let fields := strings.Fields line in
          if (4 <? List.length fields)%nat then
            do f4 <- index fields 4;
            let addressPort := strings.Split f4 ":" in
            if (List.length addressPort =? 2)%nat then
              do a0 <- index addressPort 0;
              do a1 <- index addressPort 1;
              Return (a0, convertPortToInt a1, None)
            else lookupLines specv4 specv6 rest
          else lookupLines specv4 specv6 rest
        else if strings.Contains line specv6 then
          let fields := strings.Fields line in
          if (4 <? List.length fields)%nat then
            do f4 <- index fields 4;
            let portPart := strings.Split f4 "[" in
            do p1 <- index portPart 1;
            do portNumber <- index (strings.Split p1 "]") 0;
            do p0 <- index portPart 0;
            Return (p0, convertPortToInt portNumber, None)
          else lookupLines specv4 specv6 rest
        else lookupLines specv4 specv6 rest
      else lookupLines specv4 specv6 rest
  end.

(** [lookup address port s]. *)
Definition lookup (address : string) (port : Z) (s : string) : outcome resolved :=
  let strippedAddress := address in
  let specv4 := strippedAddress ++ ":" ++ strconv.Itoa port in
  let specv6 := strippedAddress ++ "[" ++ strconv.Itoa port ++ "]" in
  let lines := strings.Split s "010" in
  lookupLines specv4 specv6 lines.

(** [PfctlLookup]: [pfctl] is what
    [exec.Command("sudo", "-n", "/sbin/pfctl", "-s", "state").Output()]
    returned, the output and the error.  A failed command panics with
    the error. *)
Definition PfctlLookup (pfctl : string * option error) (address : string) (port : Z)
  : outcome resolved :=
  let '(out, err) := pfctl in
  match err with
  | Some (Errorf msg) => Panic msg
  | None => lookup address port out
  end.

(** [LocalToRemote]: [remote] is [clientConn.RemoteAddr().String()]. *)
Definition LocalToRemote (pfctl : string * option error) (remote : string)
  : outcome resolved :=
  let sep := strings.Split remote ":" in
  do s1 <- index sep 1;
  let port := fst (strconv.Atoi s1) in
  do s0 <- index sep 0;
  do r <- PfctlLookup pfctl s0 port;
  let '(remoteAddr, remotePort, err) := r in
  match err with
  | Some e => Return ("", 0%Z, Some e)
  | None => Return (remoteAddr, remotePort, err)
  end.

(** ** The [net] functions the handler calls *)

Module net.

Fixpoint IndexByte (s : string) (c : ascii) : option nat :=
  match s with
  | EmptyString => None
  | String d s' =>
      if Ascii.eqb d c then Some 0
      else option_map S (IndexByte s' c)
  end.

Fixpoint LastIndexByte (s : string) (c : ascii) : option nat :=
  match s with
  | EmptyString => None
  | String d s' =>
      match LastIndexByte s' c with
      | Some i => Some (S i)
      | None => if Ascii.eqb d c then Some 0 else None
      end
  end.

(** [s[i:]] and [s[i:j]] for indices in range. *)
Definition from (s : string) (i : nat) : string :=
  substring i (String.length s - i) s.
Definition slice (s : string) (i j : nat) : string :=
  substring i (j - i) s.

Definition addrErr (why : string) : string * string * option error :=
  ("", "", Some (Errorf why)).

Definition has (s : string) (c : ascii) : bool :=
  match IndexByte s c with
  | Some _ => true
  | None => false
  end.

(** [net.SplitHostPort]. *)
Definition SplitHostPort (hostport : string) : string * string * option error :=
  let missingPort := "missing port in address" in
  let tooManyColons := "too many colons in address" in
  (* the last checks, once [host], [j] and [k] are set *)
  let rest (host : string) (j k i : nat) :=
    if has (from hostport j) "[" then addrErr "unexpected '[' in address"
    else if has (from hostport k) "]" then addrErr "unexpected ']' in address"
    else (host, from hostport (i + 1), None) in
  match LastIndexByte hostport ":" with
  | None => addrErr missingPort
  | Some i =>
      if strings.HasPrefix hostport "[" then
        match IndexByte hostport "]" with
        | None => addrErr "missing ']' in address"
        | Some end_ =>
            if (end_ + 1 =? String.length hostport)%nat then addrErr missingPort
            else if (end_ + 1 =? i)%nat then rest (slice hostport 1 end_) 1 (end_ + 1) i
            else if strings.HasPrefix (from hostport (end_ + 1)) ":"
                 then addrErr tooManyColons
                 else addrErr missingPort
        end
      else
        let host := slice hostport 0 i in
        if has host ":" then addrErr tooManyColons
        else rest host 0 0 i
  end.

(** [net.JoinHostPort]. *)
Definition JoinHostPort (host port : string) : string :=
  if has host ":" then "[" ++ host ++ "]:" ++ port
  else host ++ ":" ++ port.

(** A [net.Addr]: what its [Network] and [String] methods return. *)
Record Addr : Type := mkAddr { Network : string; Text : string }.

(** The [*net.TCPAddr] without zone whose [IP] prints as [ip] (the
    empty text for a nil [IP]). *)
Definition TCPAddr (ip : string) (port : Z) : Addr :=
  mkAddr "tcp" (JoinHostPort ip (strconv.Itoa port)).

End net.

(** ** Streams

    The connection delivers its octets once.  The readers the handler
    builds with [io.MultiReader] all end in the connection itself, so
    the connection's unread octets ([live]) are one piece of state that
    every read advances, and a reader is told apart by the unread octets
    of the buffers put in front of the connection ([front]). *)

Module io.

Fixpoint take (n : nat) (s : string) : string :=
  match n, s with
  | S n', String c s' => String c (take n' s')
  | _, _ => EmptyString
  end.

Fixpoint drop (n : nat) (s : string) : string :=
  match n, s with
  | S n', String _ s' => drop n' s'
  | _, _ => s
  end.

Fixpoint zeros (n : nat) : string :=
  match n with
  | O => EmptyString
  | S n' => String Ascii.zero (zeros n')
  end.

(** Reading [n] octets (fewer when the stream ends first) through a
    reader: the octets read, and what is left in front and live. *)
Definition read (n : nat) (front live : string) : string * string * string :=
  (take n (front ++ live), drop n front, drop (n - String.length front) live).

Definition EOF : error := Errorf "EOF".
Definition ErrUnexpectedEOF : error := Errorf "unexpected EOF".

(** [io.ReadFull(r, buf[:])] for a zeroed array [buf] of [n] octets:
    the array afterwards, the error, and what is left of the reader.
    The octets past those read keep their zero. *)
Definition ReadFull (n : nat) (front live : string)
  : string * option error * string * string :=
  let '(data, front', live') := read n front live in
  let got := String.length data in
  (data ++ zeros (n - got),
   if (got =? n)%nat then None
   else if (got =? 0)%nat then Some EOF else Some ErrUnexpectedEOF,
   front', live').

End io.

(** A Go result that is a value or an error. *)
Inductive result (A : Type) : Type :=
| Ok (a : A)
| Failed (e : error).

Arguments Ok {A} a.
Arguments Failed {A} e.

(** ** The libraries behind the handler *)

(** The functions of [net/http] the handler calls.  [ReadRequest s] is
    [http.ReadRequest(bufio.NewReader(r))] for a reader [r] that delivers
    the octets [s] and then ends: how many octets the [bufio.Reader]
    took from [r], and the request or the error. *)
Class HttpLib : Type := {
  Request : Type;
  Response : Type;
  ReadRequest : string -> nat * result Request;
  Host : Request -> string;
  (** the octets [req.Write] writes *)
  RequestWrite : Request -> string;
  (** [http.ReadResponse(bufio.NewReader(cc), req)], [cc] delivering the
      given octets *)
  ReadResponse : string -> Request -> result Response;
  (** the octets [resp.Write] writes *)
  ResponseWrite : Response -> string
}.

(** An extension of a ClientHello: the server-name one with its name,
    or another one with its type. *)
Inductive Extension : Type :=
| ServerNameExtension (Name : string)
| OtherExtension (type : Z).

(** The functions of package [tls-dissector] the handler calls.
    [ReadRecord s], for a reader delivering [s]: how many octets were
    read, and the record's [Opaque] or the error.  [Decode] is
    [ClientHelloMsg.Decode], giving the [Extensions]. *)
Class TlsDissector : Type := {
  ReadRecord : string -> nat * result string;
  Decode : string -> result (list Extension)
}.

(** Modelled from the spec: the constants [dissector.RecordHeaderLen]
    and [dissector.Handshake] of package [tls-dissector], which is not
    among the sources: "the size of a TLS record header" and "the TLS
    handshake-record type", 5 octets and 22 in the TLS record layer. *)
Definition RecordHeaderLen : nat := 5.
Definition Handshake : Z := 22.

(** [tls.VersionTLS10]. *)
Definition VersionTLS10 : Z := 0x0301.

(** [hdr[i]] as a number; the array has [RecordHeaderLen] octets, so the
    constant indices of the source are in range. *)
Definition octet (s : string) (i : nat) : Z :=
  match String.get i s with
  | Some c => Z.of_nat (nat_of_ascii c)
  | None => 0
  end.

(** [binary.BigEndian.Uint16(b)] for [b = s[i:i+2]]. *)
Definition BigEndianUint16 (s : string) (i : nat) : Z :=
  Z.lor (octet s (i + 1)) (Z.shiftl (octet s i) 8).

(** ** The handler *)

(** An upstream connection the router opened: the octets it will send
    until it closes, and what a write to it returns. *)
Record Upstream : Type := mkUpstream {
  reply : string;
  upWriteErr : option error
}.

(** The inbound connection: its two addresses, the octets the client
    sends before it closes, and what a write to it returns. *)
Record Conn : Type := mkConn {
  RemoteAddr : net.Addr;
  LocalAddr : net.Addr;
  input : string;
  writeErr : option error
}.

(** The [handler.Options] the handler reads.  [Bypass] is the
    [Contains] method of the bypass, [RateLimiter] its [Limiter] method
    followed by [Allow(1)] on the limiter found; [None] is nil. *)
Record Options : Type := mkOptions {
  Bypass : option (string -> bool);
  RateLimiter : option (string -> option bool)
}.

Record metadata : Type := mkMetadata {
  tproxy : bool;
  sniffing : bool
}.

(** [router] is the [Dial] method of the [*chain.Router]. *)
Record redirectHandler : Type := mkHandler {
  router : string -> string -> result Upstream;
  md : metadata;
  options : Options
}.

(** Modelled from the spec: the call [netpkg.Transport(rw, cc)] of the
    repository's internal [net] package, which is not among the
    sources: a "full-duplex copy between the client-facing stream and
    the upstream connection".  It is recorded by what it has to copy:
    [up], the octets [rw] delivers, and [down], the octets [cc]
    delivers.  ([xio.NewReadWriter(r, w)], of the internal [io]
    package, pairs a reader with a writer; the embedding passes the
    reader and writes to the connection.) *)
Record transport : Type := mkTransport {
  up : string;
  down : string
}.

(** What a run of the handler does to the world, in order.  The
    informational log lines are left out. *)
Inductive event : Type :=
| LogError (e : error)
| LogBypass (dst : string)
| Dial (network address : string)
| UpWrite (octets : string)
| ClientWrite (octets : string)
| Transport (t : transport)
| UpClose
| ConnClose.

(** The outcome of the sniffing block of [Handle]. *)
Inductive SniffResult : Type := TLS | HTTP | Opaque.

Section Handler.

Context {http : HttpLib} {dissector : TlsDissector}.

(** [ipText host] is the text of [net.ParseIP(host)], empty when
    [host] is no IP address. *)
Variable ipText : string -> string.

(** What the state command prints when run. *)
Variable pfctl : string * option error.

(** [getOriginalDstAddr] (darwin). *)
Definition getOriginalDstAddr (conn : Conn) : outcome (result net.Addr) :=
  do r <- LocalToRemote pfctl (net.Text (RemoteAddr conn));
  let '(host, port, err) := r in
  match err with
  | Some e => Return (Failed e)
  | None => Return (Ok (net.TCPAddr (ipText host) port))
  end.

(** [checkRateLimit]. *)
Definition checkRateLimit (h : redirectHandler) (addr : net.Addr) : bool :=
  match RateLimiter (options h) with
  | None => true
  | Some limiterFor =>
      let '(host, _, _) := net.SplitHostPort (net.Text addr) in
      match limiterFor host with
      | Some allow => allow
      | None => true
      end
  end.

(** [h.options.Bypass != nil && h.options.Bypass.Contains(addr)]. *)
Definition bypassed (h : redirectHandler) (addr : string) : bool :=
  match Bypass (options h) with
  | None => false
  | Some contains => contains addr
  end.

(** The loop of [getServerName] over the extensions. *)
Fixpoint serverName (exts : list Extension) : string :=
  match exts with
  | [] => ""
  | ServerNameExtension name :: _ => name
  | OtherExtension _ :: rest => serverName rest
  end.

(** [getServerName], for a reader delivering [s]: the octets read from
    it, and the host or the error. *)
Definition getServerName (s : string) : nat * result string :=
  let '(n, record) := ReadRecord s in
  match record with
  | Failed e => (n, Failed e)
  | Ok opaque =>
      match Decode opaque with
      | Failed e => (n, Failed e)
      | Ok exts => (n, Ok (serverName exts))
      end
  end.

(** The host [handleHTTPS] dials, from the server name read and the
    original destination. *)
Definition httpsHost (host : string) (dstAddr : net.Addr) : string :=
  if String.eqb host "" then net.Text dstAddr
  else
    match net.SplitHostPort host with
    | (_, _, Some _) =>
        let '(_, port, _) := net.SplitHostPort (net.Text dstAddr) in
        let port := if String.eqb port "" then "443" else port in
        net.JoinHostPort host port
    | (_, _, None) => host
    end.

(** [handleHTTPS]; the reader [rw] is given by [front] and [live]. *)
Definition handleHTTPS (h : redirectHandler) (front live : string)
    (dstAddr : net.Addr) : list event * option error :=
  let '(n, r) := getServerName (front ++ live) in
  let '(buf, front', live') := io.read n front live in
  match r with
  | Failed e => ([LogError e], Some e)
  | Ok host =>
      let host := httpsHost host dstAddr in
      if bypassed h host then ([LogBypass host], None)
      else
        match router h "tcp" host with
        | Failed e => ([Dial "tcp" host; LogError e], Some e)
        | Ok cc =>
            ([Dial "tcp" host;
              Transport (mkTransport (buf ++ front' ++ live') (reply cc));
              UpClose], None)
        end
  end.

(** The host [handleHTTP] dials, from the request's [Host]. *)
Definition httpHost (host : string) : string :=
  match net.SplitHostPort host with
  | (_, _, Some _) => net.JoinHostPort host "80"
  | (_, _, None) => host
  end.

(** [handleHTTP]; [rw] reads [front] and [live] and writes to [conn]. *)
Definition handleHTTP (h : redirectHandler) (front live : string) (conn : Conn)
  : list event * option error :=
  match snd (ReadRequest (front ++ live)) with
  | Failed e => ([], Some e)
  | Ok req =>
      let host := httpHost (Host req) in
      if bypassed h host then ([LogBypass host], None)
      else
        match router h "tcp" host with
        | Failed e => ([Dial "tcp" host; LogError e], Some e)
        | Ok cc =>
            match upWriteErr cc with
            | Some e => ([Dial "tcp" host; LogError e; UpClose], Some e)
            | None =>
                match ReadResponse (reply cc) req with
                | Failed e =>
                    ([Dial "tcp" host; UpWrite (RequestWrite req);
                      LogError e; UpClose], Some e)
                | Ok resp =>
                    match writeErr conn with
                    | Some e =>
                        ([Dial "tcp" host; UpWrite (RequestWrite req);
                          UpClose], Some e)
                    | None =>
                        ([Dial "tcp" host; UpWrite (RequestWrite req);
                          ClientWrite (ResponseWrite resp); UpClose], None)
                    end
                end
            end
        end
  end.

(** The test on the header read: [err == nil && hdr[0] ==
    dissector.Handshake && binary.BigEndian.Uint16(hdr[1:3]) ==
    tls.VersionTLS10]. *)
Definition isTLS (hdr : string) (err : option error) : bool :=
  match err with
  | Some _ => false
  | None =>
      (octet hdr 0 =? Handshake)%Z && (BigEndianUint16 hdr 1 =? VersionTLS10)%Z
  end.

(** The sniffing block of [Handle], up to the choice of the path: the
    path, and the reader [rw] ([front], [live]) handed to it. *)
Definition sniff (input : string) : SniffResult * string * string :=
  let '(hdr, err, front0, live0) := io.ReadFull RecordHeaderLen "" input in
  (* rw = MultiReader(bytes.NewReader(hdr[:]), rw) *)
  let front1 := hdr ++ front0 in
  if isTLS hdr err then (TLS, front1, live0)
  else
    let '(n, r) := ReadRequest (front1 ++ live0) in
    (* what the TeeReader copied to buf *)
    let '(buf, front2, live2) := io.read n front1 live0 in
    (* rw = MultiReader(buf, rw) *)
    let front3 := buf ++ front2 in
    match r with
    | Ok _ => (HTTP, front3, live2)
    | Failed _ => (Opaque, front3, live2)
    end.

(** The end of [Handle]: the relay to the original destination. *)
Definition relay (h : redirectHandler) (front live : string) (dstAddr : net.Addr)
  : list event * option error :=
  if bypassed h (net.Text dstAddr) then ([LogBypass (net.Text dstAddr)], None)
  else
    match router h (net.Network dstAddr) (net.Text dstAddr) with
    | Failed e =>
        ([Dial (net.Network dstAddr) (net.Text dstAddr); LogError e], Some e)
    | Ok cc =>
        ([Dial (net.Network dstAddr) (net.Text dstAddr);
          Transport (mkTransport (front ++ live) (reply cc)); UpClose], None)
    end.

(** [Handle] after the destination is known. *)
Definition dispatch (h : redirectHandler) (conn : Conn) (dstAddr : net.Addr)
  : list event * option error :=
  if sniffing (md h) then
    match sniff (input conn) with
    | (TLS, front, live) => handleHTTPS h front live dstAddr
    | (HTTP, front, live) => handleHTTP h front live conn
    | (Opaque, front, live) => relay h front live dstAddr
    end
  else relay h "" (input conn) dstAddr.

(** The destination [Handle] settles on: the local address in
    transparent mode, else what the state table gives. *)
Definition originalDst (h : redirectHandler) (conn : Conn) : outcome (result net.Addr) :=
  if tproxy (md h) then Return (Ok (LocalAddr conn))
  else getOriginalDstAddr conn.

(** [Handle] before its deferred calls run. *)
Definition handleBody (h : redirectHandler) (conn : Conn)
  : list event * outcome (option error) :=
  if negb (checkRateLimit h (RemoteAddr conn)) then ([], Return None)
  else
    match originalDst h conn with
    | Panic v => ([], Panic v)
    | Return (Failed e) => ([LogError e], Return (Some e))
    | Return (Ok dstAddr) =>
        let '(tr, err) := dispatch h conn dstAddr in (tr, Return err)
    end.

(** [Handle]: the deferred [conn.Close()] runs when the body returns
    and when it panics; a panic then goes on to the caller. *)
Definition Handle (h : redirectHandler) (conn : Conn)
  : list event * outcome (option error) :=
  let '(tr, res) := handleBody h conn in
  ((tr ++ [ConnClose])%list, res).

End Handler.

(** ** A model of [net/http] for messages without a request body

    The handler is embedded over any [HttpLib].  To run it on concrete
    octets, [gohttp] models what [net/http] does with the plainest
    HTTP/1.1 messages: a request line whose target is a path of
    unreserved characters, with a query if any; header lines
    [Name: value] with token names; no request body; a response with a
    [Content-Length] and a body of that length.  Whatever is outside
    (folded header lines, bodies in requests, other targets and
    versions) the model refuses, where [net/http] accepts more. *)

Module gohttp.

Record Request : Type := mkRequest {
  Method : string;
  RequestURI : string;
  Proto : string;
  Host : string;
  (** the header lines other than [Host], names in canonical form *)
  Header : list (string * string)
}.

Record Response : Type := mkResponse {
  Status : string;
  RespHeader : list (string * string);
  Body : string
}.

(** [strings.Cut] at a one-byte separator. *)
Fixpoint cut (s : string) (sep : ascii) : option (string * string) :=
  match s with
  | EmptyString => None
  | String c s' =>
      if Ascii.eqb c sep then Some (EmptyString, s')
      else match cut s' sep with
           | Some (a, b) => Some (String c a, b)
           | None => None
           end
  end.

Fixpoint all (p : ascii -> bool) (s : string) : bool :=
  match s with
  | EmptyString => true
  | String c s' => p c && all p s'
  end.

Definition between (lo hi : nat) (c : ascii) : bool :=
  (lo <=? nat_of_ascii c)%nat && (nat_of_ascii c <=? hi)%nat.

(** The token octets of RFC 7230. *)
Definition isToken (c : ascii) : bool :=
  between 48 57 c || between 65 90 c || between 97 122 c
  || strings.Contains "!#$%&'*+-.^_`|~" (String c EmptyString).

Definition isBlank (c : ascii) : bool :=
  Ascii.eqb c " " || Ascii.eqb c "009".

Fixpoint trimLeft (s : string) : string :=
  match s with
  | String c s' => if isBlank c then trimLeft s' else s
  | EmptyString => EmptyString
  end.

Fixpoint trimRight (s : string) : string :=
  match s with
  | EmptyString => EmptyString
  | String c s' =>
      match trimRight s' with
      | EmptyString => if isBlank c then EmptyString else String c EmptyString
      | t => String c t
      end
  end.

(** A line without the carriage return that may end it. *)
Fixpoint stripCR (s : string) : string :=
  match s with
  | EmptyString => EmptyString
  | String c EmptyString => if Ascii.eqb c "013" then EmptyString else s
  | String c s' => String c (stripCR s')
  end.

(** [textproto.CanonicalMIMEHeaderKey] on a token: a capital first and
    after each hyphen, small letters elsewhere. *)
Fixpoint canonical (upper : bool) (s : string) : string :=
  match s with
  | EmptyString => EmptyString
  | String c s' =>
      let n := nat_of_ascii c in
      let c' :=
        if upper && between 97 122 c then ascii_of_nat (n - 32)
        else if negb upper && between 65 90 c then ascii_of_nat (n + 32)
        else c in
      String c' (canonical (Ascii.eqb c' "-") s')
  end.

(** The lines up to the first empty one, and the pieces after it;
    [None] when the stream ends before an empty line.  The last piece
    of [pieces] is what follows the last line feed. *)
Fixpoint untilBlank (pieces : list string) : option (list string * list string) :=
  match pieces with
  | [] => None
  | l :: rest =>
      match rest with
      | [] => None
      | _ =>
          if String.eqb (stripCR l) "" then Some ([], rest)
          else match untilBlank rest with
               | Some (head, after) => Some (stripCR l :: head, after)
               | None => None
               end
      end
  end.

(** The one version the model takes. *)
Definition validVersion (vers : string) : bool :=
  String.eqb vers "HTTP/1.1".

(** An octet that [net/url] leaves as it is in a path. *)
Definition isPathOctet (c : ascii) : bool :=
  between 48 57 c || between 65 90 c || between 97 122 c
  || strings.Contains "-_.~/" (String c EmptyString).

(** Not a control octet. *)
Definition isPrintable (c : ascii) : bool :=
  (32 <=? nat_of_ascii c)%nat && negb (nat_of_ascii c =? 127)%nat.

(** The targets the model takes: an absolute path, and after a
    question mark a query, which [net/url] keeps as received. *)
Definition validTarget (uri : string) : bool :=
  strings.HasPrefix uri "/"
  && match cut uri "?" with
     | Some (path, query) => all isPathOctet path && all isPrintable query
     | None => all isPathOctet uri
     end.

Definition validMethod (m : string) : bool :=
  negb (String.eqb m "") && all isToken m.

(** The header lines as pairs; [None] at a malformed one.  A line with
    an empty name is passed over. *)
Fixpoint headers (lines : list string) : option (list (string * string)) :=
  match lines with
  | [] => Some []
  | l :: rest =>
      match cut (trimRight l) ":" with
      | None => None
      | Some (k, v) =>
          if isBlank (match l with String c _ => c | EmptyString => "x"%char end)
             || negb (all isToken k)
          then None
          else
            match headers rest with
            | None => None
            | Some hs =>
                if String.eqb k "" then Some hs
                else Some ((canonical true k, trimLeft v) :: hs)
            end
      end
  end.

Fixpoint lookupHeader (k : string) (hs : list (string * string)) : option string :=
  match hs with
  | [] => None
  | (k', v) :: rest => if String.eqb k k' then Some v else lookupHeader k rest
  end.

Definition without (k : string) (hs : list (string * string)) : list (string * string) :=
  filter (fun kv => negb (String.eqb k (fst kv))) hs.

(** [fixPragmaCacheControl]: [Pragma: no-cache] brings
    [Cache-Control: no-cache] when the request has no [Cache-Control]. *)
Definition fixPragmaCacheControl (hs : list (string * string)) : list (string * string) :=
  match lookupHeader "Pragma" hs, lookupHeader "Cache-Control" hs with
  | Some "no-cache", None => (hs ++ [("Cache-Control", "no-cache")])%list
  | _, _ => hs
  end.

Definition malformed : error := Errorf "malformed HTTP request".

(** The size of a [bufio.Reader]'s buffer: the reader takes its input
    in fills of at most this many octets. *)
Definition bufSize : nat := 64 * 64.

Definition filled (examined : nat) : nat := bufSize * (1 + examined / bufSize).

(** [http.ReadRequest]. *)
Definition ReadRequest (s : string) : nat * result Request :=
  match untilBlank (strings.Split s "010") with
  | None => (String.length s, Failed (Errorf "unexpected EOF"))
  | Some (head, after) =>
      let examined := String.length s - String.length (String.concat (String "010" "") after) in
      (filled examined,
       match head with
       | [] => Failed malformed
       | line :: hlines =>
           match cut line " " with
           | None => Failed malformed
           | Some (method, rest) =>
               match cut rest " " with
               | None => Failed malformed
               | Some (uri, proto) =>
                   if validMethod method && validTarget uri && validVersion proto
                   then
                     match headers hlines with
                     | None => Failed malformed
                     | Some hs =>
                         if existsb (fun k => match lookupHeader k hs with
                                              | Some _ => true | None => false end)
                              ["Content-Length"; "Transfer-Encoding"]
                         then Failed (Errorf "request body not modelled")
                         else
                           Ok (mkRequest method uri proto
                                 (match lookupHeader "Host" hs with
                                  | Some h => h | None => "" end)
                                 (without "Host" (fixPragmaCacheControl hs)))
                     end
                   else Failed malformed
               end
           end
       end)
  end.

Definition CRLF : string := String "013" (String "010" "").

Fixpoint insert (kv : string * string) (hs : list (string * string)) :=
  match hs with
  | [] => [kv]
  | kv' :: rest =>
      if String.ltb (fst kv) (fst kv') then kv :: hs
      else kv' :: insert kv rest
  end.

(** The header lines in the order of their names, as [Header.Write]
    gives them. *)
Definition sorted (hs : list (string * string)) : list (string * string) :=
  fold_right insert [] hs.

Definition headerLines (hs : list (string * string)) : string :=
  String.concat "" (map (fun kv => fst kv ++ ": " ++ snd kv ++ CRLF) hs).

(** [Request.Write]: request line, [Host], [User-Agent] (the default
    one when the request has none), the other header lines. *)
Definition RequestWrite (r : Request) : string :=
  let userAgent :=
    match lookupHeader "User-Agent" (Header r) with
    | Some ua => ua
    | None => "Go-http-client/1.1"
    end in
  Method r ++ " " ++ RequestURI r ++ " HTTP/1.1" ++ CRLF
  ++ "Host: " ++ Host r ++ CRLF
  ++ (if String.eqb userAgent "" then "" else "User-Agent: " ++ userAgent ++ CRLF)
  ++ headerLines (sorted (without "Trailer" (without "User-Agent" (Header r))))
  ++ CRLF.

(** [http.ReadResponse]: status line, header lines, and a body of
    [Content-Length] octets.  The request is not consulted. *)
Definition ReadResponse (s : string) (_ : Request) : result Response :=
  match untilBlank (strings.Split s "010") with
  | None => Failed (Errorf "unexpected EOF")
  | Some ([], _) => Failed (Errorf "malformed HTTP response")
  | Some (line :: hlines, after) =>
      if strings.HasPrefix line "HTTP/1.1 " then
        match headers hlines with
        | None => Failed (Errorf "malformed MIME header line")
        | Some hs =>
            let rest := String.concat (String "010" "") after in
            match lookupHeader "Content-Length" hs with
            | Some n =>
                match strconv.digits n 0 with
                | Some len =>
                    if (Z.to_nat len <=? String.length rest)%nat
                    then Ok (mkResponse line (without "Content-Length" hs)
                               (io.take (Z.to_nat len) rest))
                    else Failed (Errorf "short body not modelled")
                | None => Failed (Errorf "bad Content-Length")
                end
            | None => Failed (Errorf "body without length not modelled")
            end
        end
      else Failed (Errorf "malformed HTTP response")
  end.

(** [Response.Write]: status line, [Content-Length], the other header
    lines, body. *)
Definition ResponseWrite (r : Response) : string :=
  Status r ++ CRLF
  ++ "Content-Length: " ++ strconv.Itoa (Z.of_nat (String.length (Body r))) ++ CRLF
  ++ headerLines (sorted (RespHeader r)) ++ CRLF ++ Body r.

End gohttp.

#[export] Instance goHttp : HttpLib := {
  Request := gohttp.Request;
  Response := gohttp.Response;
  ReadRequest := gohttp.ReadRequest;
  Host := gohttp.Host;
  RequestWrite := gohttp.RequestWrite;
  ReadResponse := gohttp.ReadResponse;
  ResponseWrite := gohttp.ResponseWrite
}.

(** ** A model of package [tls-dissector]

    The record layer and the ClientHello of TLS as they are on the wire
    (RFC 8446, section 4.1.2; the server-name extension of RFC 6066,
    section 3), to run the handler on concrete octets. *)

Module tlsdissector.

Definition u8 (s : string) (i : nat) : nat :=
  match String.get i s with
  | Some c => nat_of_ascii c
  | None => 0
  end.

Definition u16 (s : string) (i : nat) : nat := 256 * u8 s i + u8 s (i + 1).

Definition u24 (s : string) (i : nat) : nat := 256 * 256 * u8 s i + u16 s (i + 1).

Definition ErrShortBuffer : error := Errorf "short buffer".
Definition ErrBadType : error := Errorf "bad type".

(** [ReadRecord]: the header of [RecordHeaderLen] octets, whose last
    two give the length of the payload, then the payload; both read
    with [io.ReadFull]. *)
Definition ReadRecord (s : string) : nat * result string :=
  if (String.length s <? RecordHeaderLen)%nat then
    (String.length s,
     Failed (if (String.length s =? 0)%nat then io.EOF else io.ErrUnexpectedEOF))
  else
    let length := u16 s 3 in
    let avail := String.length s - RecordHeaderLen in
    if (avail <? length)%nat then
      (String.length s,
       Failed (if (avail =? 0)%nat then io.EOF else io.ErrUnexpectedEOF))
    else
      (RecordHeaderLen + length,
       Ok (net.slice s RecordHeaderLen (RecordHeaderLen + length))).

(** The server-name extension's data: a list with one entry of type
    host name. *)
Definition serverNameData (data : string) : result Extension :=
  if (String.length data <? 5)%nat then Failed ErrShortBuffer
  else
    let nameLen := u16 data 3 in
    if (String.length data <? 5 + nameLen)%nat then Failed ErrShortBuffer
    else Ok (ServerNameExtension (net.slice data 5 (5 + nameLen))).

(** The extensions, each a type, a length and its data. *)
Fixpoint extensions (fuel : nat) (e : string) : result (list Extension) :=
  match fuel with
  | O => Ok []
  | S fuel' =>
      if String.eqb e "" then Ok []
      else if (String.length e <? 4)%nat then Failed ErrShortBuffer
      else
        let type := u16 e 0 in
        let len := u16 e 2 in
        if (String.length e <? 4 + len)%nat then Failed ErrShortBuffer
        else
          match (if (type =? 0)%nat
                 then serverNameData (net.slice e 4 (4 + len))
                 else Ok (OtherExtension (Z.of_nat type))) with
          | Failed err => Failed err
          | Ok ext =>
              match extensions fuel' (net.from e (4 + len)) with
              | Failed err => Failed err
              | Ok exts => Ok (ext :: exts)
              end
          end
  end.

(** [ClientHelloMsg.Decode]: handshake type 1 and a length, then
    version, random, session id, cipher suites, compression methods
    and, when octets remain, the extensions. *)
Definition Decode (data : string) : result (list Extension) :=
  if (String.length data <? 4)%nat then Failed ErrShortBuffer
  else if negb (u8 data 0 =? 1)%nat then Failed ErrBadType
  else
    let length := u24 data 1 in
    if (String.length data <? 4 + length)%nat then Failed ErrShortBuffer
    else
      let body := net.slice data 4 (4 + length) in
      let sid := 34 in
      if (length <? sid + 1)%nat then Failed ErrShortBuffer
      else
        let suites := sid + 1 + u8 body sid in
        if (length <? suites + 2)%nat then Failed ErrShortBuffer
        else
          let methods := suites + 2 + u16 body suites in
          if (length <? methods + 1)%nat then Failed ErrShortBuffer
          else
            let exts := methods + 1 + u8 body methods in
            if (length <? exts + 2)%nat then Ok []
            else
              let extLen := u16 body exts in
              if (length <? exts + 2 + extLen)%nat then Failed ErrShortBuffer
              else extensions extLen (net.slice body (exts + 2) (exts + 2 + extLen)).

(** Writers, to build test records. *)
Definition w8 (n : nat) : string := String (ascii_of_nat n) "".
Definition w16 (n : nat) : string := w8 (n / 256) ++ w8 (n mod 256).
Definition w24 (n : nat) : string := w8 (n / (256 * 256)) ++ w16 (n mod (256 * 256)).

(** A TLS 1.0 handshake record around [payload]. *)
Definition record (payload : string) : string :=
  w8 22 ++ w16 769 ++ w16 (String.length payload) ++ payload.

(** A ClientHello with one cipher suite, carrying the server name
    [name] when given. *)
Definition clientHello (name : option string) : string :=
  let exts :=
    match name with
    | None => ""
    | Some n =>
        let entry := w8 0 ++ w16 (String.length n) ++ n in
        let data := w16 (String.length entry) ++ entry in
        w16 0 ++ w16 (String.length data) ++ data
    end in
  let body :=
    w16 771 ++ io.zeros 32 ++ w8 0 ++ w16 2 ++ w8 19 ++ w8 1 ++ w8 1 ++ w8 0
    ++ w16 (String.length exts) ++ exts in
  w8 1 ++ w24 (String.length body) ++ body.

End tlsdissector.

#[export] Instance tlsDissector : TlsDissector := {
  ReadRecord := tlsdissector.ReadRecord;
  Decode := tlsdissector.Decode
}.

(** ** The claims' vocabulary *)

(** A line carries the state tag. *)
Definition established (line : string) : bool :=
  strings.Contains line "ESTABLISHED:ESTABLISHED".

(** A line matches the key: it contains [addr:port] or [addr[port]]. *)
Definition matchesKey (address : string) (port : Z) (line : string) : bool :=
  strings.Contains line (address ++ ":" ++ strconv.Itoa port)
  || strings.Contains line (address ++ "[" ++ strconv.Itoa port ++ "]").

Definition noDestination : resolved :=
  ("", 0%Z, Some (Errorf "could not resolve original destination")).

(** The two lines of the specification. *)
Definition line4 : string :=
  "ALL tcp 192.168.1.13:57474 -> 23.205.82.58:443       ESTABLISHED:ESTABLISHED".
Definition line6 : string :=
  "ALL tcp 2a01:e35:8bae:50f0:9d9b:ef0d:2de3:b733[58505] -> 2606:4700:30::681f:4ad0[443]  ESTABLISHED:ESTABLISHED".

(** The key [LocalToRemote] hands to [PfctlLookup]: the first two
    pieces of the remote address cut at its colons. *)
Definition lookupKey (remote : string) : outcome (string * Z) :=
  let sep := strings.Split remote ":" in
  do s1 <- index sep 1;
  do s0 <- index sep 0;
  Return (s0, fst (strconv.Atoi s1)).

Fixpoint count (c : ascii) (s : string) : nat :=
  match s with
  | EmptyString => 0
  | String d s' => (if Ascii.eqb d c then 1 else 0) + count c s'
  end.

Fixpoint allDigits (s : string) : bool :=
  match s with
  | EmptyString => true
  | String c s' => strconv.isDigit c && allDigits s'
  end.

(** The text is a decimal number: an optional sign, then one digit
    at least and digits only. *)
Definition isDecimal (s : string) : bool :=
  match s with
  | EmptyString => false
  | String c s' =>
      if Ascii.eqb c "-" || Ascii.eqb c "+"
      then negb (String.eqb s' "") && allDigits s'
      else allDigits s
  end.

(** After an opening bracket: digits, then the closing bracket. *)
Fixpoint closesPort (s : string) : bool :=
  match s with
  | EmptyString => false
  | String c s' => Ascii.eqb c "]" || (strconv.isDigit c && closesPort s')
  end.

(** Every opening bracket of the line starts a bracketed port, as in
    the IPv6 lines of the state table ([addr[port]]); a line without
    brackets, as the IPv4 ones, is of this kind too. *)
Fixpoint bracketsHoldPorts (s : string) : bool :=
  match s with
  | EmptyString => true
  | String c s' =>
      (if Ascii.eqb c "[" then closesPort s' else true) && bracketsHoldPorts s'
  end.

(** The stream begins with a TLS record header of type handshake and
    version TLS 1.0: [RecordHeaderLen] octets, the first 22, the next
    two 3 and 1. *)
Definition beginsWithHandshakeHeader (s : string) : bool :=
  (RecordHeaderLen <=? String.length s)%nat
  && (octet s 0 =? 22)%Z && (octet s 1 =? 3)%Z && (octet s 2 =? 1)%Z.

Section Vocabulary.

Context {http : HttpLib} {dissector : TlsDissector}.

(** What the reader handed on by the sniffer delivers to whoever
    reads it next: the octets replayed, then the live connection. *)
Definition delivered (input : string) : string :=
  let '(_, front, live) := sniff input in front ++ live.

(** The stream parses as an HTTP request. *)
Definition parsesAsRequest (s : string) : bool :=
  match snd (ReadRequest s) with
  | Ok _ => true
  | Failed _ => false
  end.

(** The classification the specification words: TLS for a handshake
    header, else HTTP for a stream that parses as a request, else
    opaque. *)
Definition classification (s : string) : SniffResult :=
  if beginsWithHandshakeHeader s then TLS
  else if parsesAsRequest s then HTTP
  else Opaque.

(** The extension is the server-name one. *)
Definition isServerName (ext : Extension) : bool :=
  match ext with
  | ServerNameExtension _ => true
  | OtherExtension _ => false
  end.

(** The SNI host of a ClientHello: the name of the first server-name
    extension among its extensions, wherever it stands; none when
    there is no such extension or its name is empty. *)
Definition sniHost (exts : list Extension) : option string :=
  match find isServerName exts with
  | Some (ServerNameExtension (String c name)) => Some (String c name)
  | _ => None
  end.

(** A host text carries a port: it splits into host and port. *)
Definition carriesPort (hostport : string) : bool :=
  match net.SplitHostPort hostport with
  | (_, _, None) => true
  | (_, _, Some _) => false
  end.

(** The port of the original destination, when it has one. *)
Definition portOf (dst : string) : option string :=
  match net.SplitHostPort dst with
  | (_, EmptyString, _) => None
  | (_, port, _) => Some port
  end.

(** The routing target of the TLS path as the specification words it. *)
Definition routingTarget (sni : option string) (dst : string) : string :=
  match sni with
  | None => dst
  | Some host =>
      if carriesPort host then host
      else net.JoinHostPort host
             (match portOf dst with Some port => port | None => "443" end)
  end.

(** The destination the path taken resolves and asks the bypass about;
    [None] when the path fails before it has one. *)
Definition destination (h : redirectHandler) (conn : Conn) (dstAddr : net.Addr)
  : option string :=
  if sniffing (md h) then
    match sniff (input conn) with
    | (TLS, front, live) =>
        match snd (getServerName (front ++ live)) with
        | Ok host => Some (httpsHost host dstAddr)
        | Failed _ => None
        end
    | (HTTP, front, live) =>
        match snd (ReadRequest (front ++ live)) with
        | Ok req => Some (httpHost (Host req))
        | Failed _ => None
        end
    | (Opaque, _, _) => Some (net.Text dstAddr)
    end
  else Some (net.Text dstAddr).

End Vocabulary.

(** ** Sample runs *)

Definition minimalGet : string :=
  "GET / HTTP/1.1" ++ gohttp.CRLF ++ "Host: example.com" ++ gohttp.CRLF ++ gohttp.CRLF.

Definition okResponse : string :=
  "HTTP/1.1 200 OK" ++ gohttp.CRLF ++ "Content-Length: 2" ++ gohttp.CRLF
  ++ gohttp.CRLF ++ "hi".

(** A router whose every dial succeeds, the upstream answering
    [okResponse]. *)
Definition anyRouter (network address : string) : result Upstream :=
  Ok (mkUpstream okResponse None).

Definition sampleHandler (tproxy sniffing : bool) (bypass : option (string -> bool))
  : redirectHandler :=
  mkHandler anyRouter (mkMetadata tproxy sniffing) (mkOptions bypass None).

Definition sampleConn (input : string) : Conn :=
  mkConn (net.mkAddr "tcp" "192.168.1.13:57474") (net.mkAddr "tcp" "23.205.82.58:443")
    input None.

Definition idText (host : string) : string := host.

(** ** The vocabulary of the further properties *)

(** The lookup passes over the line: it lacks the state tag; or it has
    the key in the colon form, and no fifth field or one that does not
    fall into two pieces at its colons; or it has the key in the
    bracket form only, and no fifth field; or it has no key. *)
Definition passedOver (specv4 specv6 line : string) : bool :=
  negb (strings.Contains line "ESTABLISHED:ESTABLISHED")
  || if strings.Contains line specv4 then
       match nth_error (strings.Fields line) 4 with
       | None => true
       | Some f4 => negb (List.length (strings.Split f4 ":") =? 2)%nat
       end
     else if strings.Contains line specv6 then
       (List.length (strings.Fields line) <=? 4)%nat
     else true.

(** A text free of colons and brackets, as a host name, an IPv4
    address or a port is. *)
Definition bare (s : string) : bool :=
  negb (net.has s ":") && negb (net.has s "[") && negb (net.has s "]").

(** The addresses dialled in a trace, in order. *)
Definition dials (tr : list event) : list (string * string) :=
  flat_map (fun e => match e with
                     | Dial network address => [(network, address)]
                     | _ => []
                     end) tr.

(** How often the upstream connection is closed in a trace. *)
Definition upCloses (tr : list event) : nat :=
  List.length (filter (fun e => match e with UpClose => true | _ => false end) tr).

(** The trace moves octets: it writes to one of the two sides or runs
    the transport. *)
Definition movesOctets (tr : list event) : bool :=
  existsb (fun e => match e with
                    | UpWrite _ | ClientWrite _ | Transport _ => true
                    | _ => false
                    end) tr.

(** The writes of a trace, in order: a request to the upstream
    ([inl]) or a response to the client ([inr]). *)
Definition exchange (tr : list event) : list (string + string) :=
  flat_map (fun e => match e with
                     | UpWrite octets => [inl octets]
                     | ClientWrite octets => [inr octets]
                     | _ => []
                     end) tr.

(** The transports of a trace, in order. *)
Definition transports (tr : list event) : list transport :=
  flat_map (fun e => match e with
                     | Transport t => [t]
                     | _ => []
                     end) tr.

(** * Properties *)

(** ** The library functions on sample inputs *)

Example Fields_sample :
  strings.Fields ("  ALL tcp" ++ String "009" "a:1 ->  b:2 " ++ strings.octets [194; 160] ++ "X")
  = ["ALL"; "tcp"; "a:1"; "->"; "b:2"; "X"].
Proof. vm_compute. reflexivity. Qed.

Example Split_sample :
  strings.Split "2606:4700::1[443]" "[" = ["2606:4700::1"; "443]"]
  /\ strings.Split "a::b" ":" = ["a"; ""; "b"]
  /\ strings.Split "" ":" = [""].
Proof. repeat split. Qed.

Example Atoi_sample :
  map strconv.Atoi ["443"; "-12"; "+7"; "e35"; ""; "9223372036854775808";
                    "-9223372036854775808"; "1234567890123456789x";
                    "99999999999999999999x"; "-99999999999999999999x"]
  = [(443, None); (-12, None); (7, None);
     (0, Some (Errorf "strconv.Atoi: invalid syntax"));
     (0, Some (Errorf "strconv.Atoi: invalid syntax"));
     (9223372036854775807, Some (Errorf "strconv.Atoi: value out of range"));
     (-9223372036854775808, None);
     (0, Some (Errorf "strconv.Atoi: invalid syntax"));
     (9223372036854775807, Some (Errorf "strconv.Atoi: value out of range"));
     (-9223372036854775808, Some (Errorf "strconv.Atoi: value out of range"))]%Z.
Proof. vm_compute. reflexivity. Qed.

Example Itoa_sample :
  map strconv.Itoa [0; 443; -5]%Z = ["0"; "443"; "-5"].
Proof. vm_compute. reflexivity. Qed.

Example SplitHostPort_sample :
  map net.SplitHostPort ["example.com"; "example.com:80"; "[::1]:80"; "::1"; "a:"]
  = [("", "", Some (Errorf "missing port in address"));
     ("example.com", "80", None);
     ("::1", "80", None);
     ("", "", Some (Errorf "too many colons in address"));
     ("a", "", None)].
Proof. vm_compute. reflexivity. Qed.

Example serverName_sample :
  serverName [OtherExtension 10; ServerNameExtension "a.example";
              OtherExtension 16; ServerNameExtension "b.example"]
  = "a.example"
  /\ serverName [OtherExtension 10; OtherExtension 16] = "".
Proof. split; reflexivity. Qed.

Example routingTarget_sample :
  routingTarget (Some "example.com") "23.205.82.58:8443" = "example.com:8443"
  /\ routingTarget (Some "example.com") "23.205.82.58" = "example.com:443"
  /\ routingTarget (Some "example.com:444") "23.205.82.58:8443" = "example.com:444"
  /\ routingTarget None "23.205.82.58:8443" = "23.205.82.58:8443".
Proof. repeat split. Qed.

(** ** Strings *)

Lemma append_empty (s : string) : s ++ "" = s.
Proof. induction s as [|c s IH]; simpl; [reflexivity | now rewrite IH]. Qed.

Lemma append_assoc (a b c : string) : (a ++ b) ++ c = a ++ b ++ c.
Proof. induction a as [|x a IH]; simpl; [reflexivity | now rewrite IH]. Qed.

Lemma length_append (a b : string) :
  String.length (a ++ b) = String.length a + String.length b.
Proof. induction a as [|x a IH]; simpl; [reflexivity | now rewrite IH]. Qed.

Lemma has_cons (c d : ascii) (s : string) :
  net.has (String d s) c = Ascii.eqb d c || net.has s c.
Proof.
  unfold net.has; simpl.
  destruct (Ascii.eqb d c); [reflexivity|].
  now destruct (net.IndexByte s c).
Qed.

(** Cutting at the separator: a piece free of it comes off whole. *)
Lemma Split_first (g rest : string) (c : ascii) :
  net.has g c = false ->
  strings.Split (g ++ String c rest) c = g :: strings.Split rest c.
Proof.
  induction g as [|d g IH]; simpl; intros Hg.
  - now rewrite Ascii.eqb_refl.
  - rewrite has_cons in Hg. apply orb_false_elim in Hg as [Hd Hg].
    rewrite Hd, (IH Hg). reflexivity.
Qed.

(** ** The state-table lookup *)

(** A table none of whose lines is established and matches the two
    key texts resolves to nothing. *)
Lemma lookupLines_no_match (specv4 specv6 : string) (lines : list string) :
  (forall line, In line lines ->
     strings.Contains line "ESTABLISHED:ESTABLISHED"
     && (strings.Contains line specv4 || strings.Contains line specv6) = false) ->
  lookupLines specv4 specv6 lines = Return noDestination.
Proof.
  induction lines as [|line rest IH]; intros Hno; [reflexivity|].
  assert (Hrest : lookupLines specv4 specv6 rest = Return noDestination).
  { apply IH. intros l Hl. apply Hno. now right. }
  specialize (Hno line (or_introl eq_refl)).
  cbn [lookupLines].
  destruct (strings.Contains line "ESTABLISHED:ESTABLISHED"); [|exact Hrest].
  cbn in Hno. apply orb_false_elim in Hno as [H4 H6].
  now rewrite H4, H6.
Qed.

(** C3: the two lines of the specification resolve to their
    destinations, and a table text with no line that is both
    established and matching the key yields the resolution error. *)
Theorem lookup_state_table :
  lookup "192.168.1.13" 57474 line4 = Return ("23.205.82.58", 443%Z, None)
  /\ lookup "2a01:e35:8bae:50f0:9d9b:ef0d:2de3:b733" 58505 line6
     = Return ("2606:4700:30::681f:4ad0", 443%Z, None)
  /\ forall (address : string) (port : Z) (s : string),
       (forall line, In line (strings.Split s "010") ->
          established line && matchesKey address port line = false) ->
       lookup address port s
       = Return ("", 0%Z, Some (Errorf "could not resolve original destination")).
Proof.
  split; [vm_compute; reflexivity|].
  split; [vm_compute; reflexivity|].
  intros address port s Hno.
  unfold lookup. apply lookupLines_no_match. exact Hno.
Qed.

Lemma lookup_state_table_witness :
  lookup "192.168.1.13" 57474
    ("ALL tcp 10.0.0.7:57474 -> 23.205.82.58:443       ESTABLISHED:ESTABLISHED"
     ++ String "010" "ALL tcp 192.168.1.13:57474 -> 23.205.82.58:443       SYN_SENT:CLOSED")
  = Return ("", 0%Z, Some (Errorf "could not resolve original destination")).
Proof.
  apply (proj2 (proj2 lookup_state_table)).
  simpl strings.Split.
  intros line [<-|[<-|[]]]; vm_compute; reflexivity.
Defined.

(** C4: [lookup] is not total.  On an established line that contains
    the key in the bracket form while its fifth field has no opening
    bracket, the index [portPart[1]] is out of range and the call
    panics. *)
Theorem lookup_panics :
  lookup "1.2.3.4" 80 "ALL tcp 1.2.3.4[80] -> 5.6.7.8:443 ESTABLISHED:ESTABLISHED"
  = Panic "runtime error: index out of range".
Proof. vm_compute. reflexivity. Qed.

(** ** The key of [LocalToRemote] *)

Lemma LocalToRemote_key (pfctl : string * option error) (remote : string) :
  LocalToRemote pfctl remote =
  (do k <- lookupKey remote;
   do r <- PfctlLookup pfctl (fst k) (snd k);
   let '(remoteAddr, remotePort, err) := r in
   match err with
   | Some e => Return ("", 0%Z, Some e)
   | None => Return (remoteAddr, remotePort, err)
   end).
Proof.
  unfold LocalToRemote, lookupKey.
  destruct (index (strings.Split remote ":") 1); [|reflexivity].
  destruct (index (strings.Split remote ":") 0); reflexivity.
Qed.

(** After an opening bracket that starts a port, no text made of a
    piece free of closing brackets and then a colon or an opening
    bracket can follow. *)
Lemma HasPrefix_port (l g t : string) (c : ascii) :
  closesPort l = true ->
  net.has g "]" = false ->
  Ascii.eqb c "]" = false -> strconv.isDigit c = false ->
  strings.HasPrefix l (g ++ String c t) = false.
Proof.
  intros Hl Hg Hc Hd. revert g Hg.
  induction l as [|y l IH]; intros g Hg; [discriminate Hl|].
  simpl in Hl.
  destruct g as [|z g]; simpl.
  - destruct (Ascii.eqb_spec y c) as [->|]; [|reflexivity].
    now rewrite Hc, Hd in Hl.
  - rewrite has_cons in Hg. apply orb_false_elim in Hg as [Hz Hg].
    destruct (Ascii.eqb_spec y z) as [->|]; [|reflexivity].
    rewrite Hz in Hl. simpl in Hl.
    apply andb_true_iff in Hl as [_ Hl].
    now rewrite (IH Hl g Hg).
Qed.

Lemma Contains_port (line g t : string) (c : ascii) :
  bracketsHoldPorts line = true ->
  strings.HasPrefix g "[" = true ->
  net.has g "]" = false ->
  Ascii.eqb c "]" = false -> strconv.isDigit c = false ->
  strings.Contains line (g ++ String c t) = false.
Proof.
  intros Hline Hp Hg Hc Hd.
  destruct g as [|b g]; [discriminate Hp|].
  simpl in Hp. apply andb_true_iff in Hp as [Hb _].
  apply Ascii.eqb_eq in Hb. subst b.
  rewrite has_cons in Hg. apply orb_false_elim in Hg as [_ Hg].
  induction line as [|x line IH]; [reflexivity|].
  simpl in Hline. apply andb_true_iff in Hline as [Hx Hline].
  cbn [strings.Contains]. rewrite (IH Hline), orb_false_r.
  simpl.
  destruct (Ascii.eqb_spec x "[") as [->|]; [|reflexivity].
  simpl. now apply HasPrefix_port.
Qed.

Lemma Split_nonempty (s : string) (c : ascii) : strings.Split s c <> [].
Proof.
  destruct s as [|d s]; simpl; [discriminate|].
  destruct (Ascii.eqb d c); [discriminate|].
  destruct (strings.Split s c); discriminate.
Qed.

(** ** Decimal texts *)

Lemma digit_value (c : ascii) :
  strconv.isDigit c = true -> (0 <= Z.of_nat (nat_of_ascii c) - 48 <= 9)%Z.
Proof.
  unfold strconv.isDigit. intros H. apply andb_true_iff in H as [Hlo Hhi].
  apply Nat.leb_le in Hlo, Hhi. lia.
Qed.

Lemma digits_mono (s : string) (n v : Z) :
  strconv.digits s n = Some v -> (0 <= n)%Z -> (n <= v)%Z.
Proof.
  revert n. induction s as [|c s IH]; intros n H Hn; cbn [strconv.digits] in H.
  - injection H as <-. lia.
  - destruct (strconv.isDigit c) eqn:Hc; [|discriminate H].
    pose proof (digit_value c Hc). apply IH in H; lia.
Qed.

Lemma digits_bound (s : string) (n v : Z) :
  strconv.digits s n = Some v -> (0 <= n)%Z ->
  (v < (n + 1) * 10 ^ Z.of_nat (String.length s))%Z.
Proof.
  revert n. induction s as [|c s IH]; intros n H Hn;
    cbn [strconv.digits String.length] in *.
  - injection H as <-. change (10 ^ Z.of_nat 0)%Z with 1%Z. lia.
  - destruct (strconv.isDigit c) eqn:Hc; [|discriminate H].
    pose proof (digit_value c Hc) as Hd. apply IH in H; [|lia].
    rewrite Nat2Z.inj_succ, Z.pow_succ_r by lia.
    assert (0 < 10 ^ Z.of_nat (String.length s))%Z by (apply Z.pow_pos_nonneg; lia).
    nia.
Qed.

(** [ParseUint]'s loop reads a run of digits as the fast path does,
    as long as the number fits 64 bits. *)
Lemma parseUintFrom_digits (s : string) (n v : Z) :
  strconv.digits s n = Some v -> (0 <= n)%Z -> (v <= strconv.maxUint64)%Z ->
  strconv.parseUintFrom s n = (v, None).
Proof.
  revert n. induction s as [|c s IH]; intros n H Hn Hv;
    cbn [strconv.digits strconv.parseUintFrom] in *.
  - now injection H as <-.
  - destruct (strconv.isDigit c) eqn:Hc; [|discriminate H].
    pose proof (digit_value c Hc) as Hd.
    pose proof (digits_mono _ _ _ H ltac:(lia)) as Hm.
    change strconv.cutoff with 1844674407370955162%Z.
    change strconv.maxUint64 with 18446744073709551615%Z in *.
    destruct (Z.leb_spec 1844674407370955162 n); [lia|].
    destruct (Z.ltb_spec 18446744073709551615 (n * 10 + (Z.of_nat (nat_of_ascii c) - 48)));
      [lia|].
    replace (n * 10 + (Z.of_nat (nat_of_ascii c) - 48))%Z
      with (10 * n + (Z.of_nat (nat_of_ascii c) - 48))%Z by lia.
    apply IH; [exact H | lia | lia].
Qed.

Lemma parseUintFrom_nonneg (s : string) (n : Z) :
  (0 <= n)%Z -> (0 <= fst (strconv.parseUintFrom s n))%Z.
Proof.
  revert n. induction s as [|c s IH]; intros n Hn; cbn [strconv.parseUintFrom].
  - exact Hn.
  - destruct (strconv.isDigit c) eqn:Hc; [|cbn; lia].
    pose proof (digit_value c Hc) as Hd.
    change strconv.maxUint64 with 18446744073709551615%Z.
    destruct (_ <=? _)%Z; [cbn; lia|].
    destruct (_ <? _)%Z; [cbn; lia|].
    apply IH. lia.
Qed.

Lemma ParseUint_nonneg (s : string) : (0 <= fst (strconv.ParseUint s))%Z.
Proof.
  destruct s; [cbn; lia|]. unfold strconv.ParseUint.
  apply parseUintFrom_nonneg. lia.
Qed.

Lemma ParseInt_range (s : string) :
  (strconv.minInt <= fst (strconv.ParseInt s) <= strconv.maxInt)%Z.
Proof.
  change strconv.maxInt with 9223372036854775807%Z.
  change strconv.minInt with (-9223372036854775808)%Z.
  destruct s as [|c s]; [cbn; lia|].
  unfold strconv.ParseInt.
  set (text := if (Ascii.eqb c "+" || Ascii.eqb c "-")%bool then s else String c s).
  pose proof (ParseUint_nonneg text) as Hun.
  destruct (strconv.ParseUint text) as [un [[|]|]]; cbn [fst] in *;
    try (cbn; lia);
    change (2 ^ 63)%Z with 9223372036854775808%Z;
    destruct (Ascii.eqb c "-"); cbn [negb andb];
    try (destruct (Z.leb_spec 9223372036854775808 un); cbn; lia);
    destruct (Z.ltb_spec 9223372036854775808 un); cbn; lia.
Qed.

Lemma ParseUint_digits (s : string) (v : Z) :
  s <> "" -> strconv.digits s 0 = Some v -> (v <= strconv.maxUint64)%Z ->
  strconv.ParseUint s = (v, None).
Proof.
  intros Hs H Hv. destruct s; [contradiction|].
  unfold strconv.ParseUint. apply parseUintFrom_digits; [exact H | lia | exact Hv].
Qed.

(** A decimal number within the range of [int] is read by [ParseInt]
    as by the fast path. *)
Lemma ParseInt_signedDecimal (s : string) (v : Z) :
  strconv.signedDecimal s = Some v ->
  (strconv.minInt <= v <= strconv.maxInt)%Z ->
  strconv.ParseInt s = (v, None).
Proof.
  change strconv.maxInt with 9223372036854775807%Z.
  change strconv.minInt with (-9223372036854775808)%Z.
  destruct s as [|c s]; [discriminate|].
  unfold strconv.signedDecimal, strconv.ParseInt. intros H Hv.
  destruct (Ascii.eqb c "-") eqn:Hneg.
  - rewrite orb_true_r.
    destruct s as [|d s]; [discriminate H|].
    destruct (strconv.digits (String d s) 0) as [u|] eqn:Hu; [|discriminate H].
    injection H as <-.
    pose proof (digits_mono _ _ _ Hu ltac:(lia)).
    rewrite (ParseUint_digits (String d s) u ltac:(discriminate) Hu)
      by (change strconv.maxUint64 with 18446744073709551615%Z; lia).
    change (2 ^ 63)%Z with 9223372036854775808%Z. cbn [negb andb].
    destruct (Z.ltb_spec 9223372036854775808 u); [lia | reflexivity].
  - rewrite orb_false_r.
    destruct (Ascii.eqb c "+") eqn:Hpos.
    + destruct s as [|d s]; [discriminate H|].
      pose proof (digits_mono _ _ _ H ltac:(lia)).
      rewrite (ParseUint_digits (String d s) v ltac:(discriminate) H)
        by (change strconv.maxUint64 with 18446744073709551615%Z; lia).
      change (2 ^ 63)%Z with 9223372036854775808%Z. cbn [negb andb].
      destruct (Z.leb_spec 9223372036854775808 v); [lia | reflexivity].
    + pose proof (digits_mono _ _ _ H ltac:(lia)).
      rewrite (ParseUint_digits (String c s) v ltac:(discriminate) H)
        by (change strconv.maxUint64 with 18446744073709551615%Z; lia).
      change (2 ^ 63)%Z with 9223372036854775808%Z. cbn [negb andb].
      destruct (Z.leb_spec 9223372036854775808 v); [lia | reflexivity].
Qed.

Lemma pow10_le (k : nat) : k <= 18 -> (10 ^ Z.of_nat k <= 1000000000000000000)%Z.
Proof.
  intros Hk. change 1000000000000000000%Z with (10 ^ 18)%Z.
  apply Z.pow_le_mono_r; lia.
Qed.

(** The fast path cannot overflow: 18 digits fit an [int]. *)
Lemma signedDecimal_short (s : string) (v : Z) :
  String.length s < 19 -> strconv.signedDecimal s = Some v ->
  (strconv.minInt <= v <= strconv.maxInt)%Z.
Proof.
  change strconv.maxInt with 9223372036854775807%Z.
  change strconv.minInt with (-9223372036854775808)%Z.
  destruct s as [|c s]; [discriminate|]. cbn [String.length]. intros Hlen.
  unfold strconv.signedDecimal.
  assert (Hrun : forall t u, String.length t <= 18 -> strconv.digits t 0 = Some u ->
                             (0 <= u < 1000000000000000000)%Z).
  { intros t u Ht Hu.
    pose proof (digits_mono _ _ _ Hu ltac:(lia)).
    pose proof (digits_bound _ _ _ Hu ltac:(lia)).
    pose proof (pow10_le _ Ht). lia. }
  destruct (Ascii.eqb c "-").
  - destruct s as [|d s]; [discriminate|].
    destruct (strconv.digits (String d s) 0) as [u|] eqn:Hu; [|discriminate].
    intros [= <-]. specialize (Hrun (String d s) u ltac:(lia) Hu). lia.
  - destruct (Ascii.eqb c "+").
    + destruct s as [|d s]; [discriminate|].
      intros Hu. specialize (Hrun (String d s) v ltac:(lia) Hu). lia.
    + intros Hu. specialize (Hrun (String c s) v ltac:(cbn [String.length]; lia) Hu). lia.
Qed.

Lemma Atoi_range (s : string) :
  (strconv.minInt <= fst (strconv.Atoi s) <= strconv.maxInt)%Z.
Proof.
  unfold strconv.Atoi.
  destruct ((0 <? String.length s)%nat && (String.length s <? 19)%nat) eqn:Hfast.
  - apply andb_true_iff in Hfast as [_ Hlen]. apply Nat.ltb_lt in Hlen.
    destruct (strconv.signedDecimal s) as [v|] eqn:Hv.
    + exact (signedDecimal_short s v Hlen Hv).
    + cbn. change strconv.maxInt with 9223372036854775807%Z.
      change strconv.minInt with (-9223372036854775808)%Z. lia.
  - pose proof (ParseInt_range s) as Hr.
    destruct (strconv.ParseInt s) as [i err]. exact Hr.
Qed.

(** [Atoi] gives a decimal number within the range of [int] its
    value, on either path. *)
Lemma Atoi_decimal (s : string) (v : Z) :
  strconv.signedDecimal s = Some v ->
  (strconv.minInt <= v <= strconv.maxInt)%Z ->
  strconv.Atoi s = (v, None).
Proof.
  intros Hv Hr. unfold strconv.Atoi.
  destruct ((0 <? String.length s)%nat && (String.length s <? 19)%nat).
  - now rewrite Hv.
  - now rewrite (ParseInt_signedDecimal s v Hv Hr).
Qed.

Lemma digits_acc (d : Decimal.uint) (p : positive) :
  strconv.digits (NilEmpty.string_of_uint d) (Z.pos p)
  = Some (Z.pos (Pos.of_uint_acc d p)).
Proof.
  revert p.
  induction d; intros p; cbn [NilEmpty.string_of_uint Pos.of_uint_acc];
    [reflexivity | ..];
    rewrite <- IHd; unfold strconv.digits at 1; fold strconv.digits;
    match goal with |- (if ?b then _ else _) = _ => change b with true end;
    cbv iota; f_equal;
    match goal with |- context [Z.of_nat ?n] =>
      let k := eval vm_compute in (Z.of_nat n) in change (Z.of_nat n) with k
    end; lia.
Qed.

Lemma digits_uint (d : Decimal.uint) :
  strconv.digits (NilEmpty.string_of_uint d) 0 = Some (Z.of_N (Pos.of_uint d)).
Proof.
  induction d; cbn [NilEmpty.string_of_uint Pos.of_uint Z.of_N];
    [reflexivity | exact IHd | ..];
    rewrite <- digits_acc; reflexivity.
Qed.

Lemma signedDecimal_uint (d : Decimal.uint) :
  d <> Decimal.Nil ->
  strconv.signedDecimal (NilEmpty.string_of_uint d)
  = strconv.digits (NilEmpty.string_of_uint d) 0.
Proof. destruct d; [contradiction | reflexivity ..]. Qed.

Lemma string_of_uint_nonempty (d : Decimal.uint) :
  d <> Decimal.Nil -> NilEmpty.string_of_uint d <> "".
Proof. destruct d; [contradiction | discriminate ..]. Qed.

Lemma NilZero_nonnil (d : Decimal.uint) :
  d <> Decimal.Nil -> NilZero.string_of_uint d = NilEmpty.string_of_uint d.
Proof. destruct d; [contradiction | reflexivity ..]. Qed.

Lemma signedDecimal_Itoa (n : Z) : strconv.signedDecimal (strconv.Itoa n) = Some n.
Proof.
  unfold strconv.Itoa. destruct n as [|p|p]; [reflexivity | |].
  - cbn [Z.to_int NilZero.string_of_int].
    pose proof (DecimalPos.Unsigned.to_uint_nonnil p) as Hnn.
    rewrite (NilZero_nonnil _ Hnn), (signedDecimal_uint _ Hnn), digits_uint.
    now rewrite DecimalPos.Unsigned.of_to.
  - cbn [Z.to_int NilZero.string_of_int].
    pose proof (DecimalPos.Unsigned.to_uint_nonnil p) as Hnn.
    rewrite (NilZero_nonnil _ Hnn).
    pose proof (string_of_uint_nonempty _ Hnn) as Hne.
    unfold strconv.signedDecimal. cbn [Ascii.eqb Bool.eqb].
    destruct (NilEmpty.string_of_uint (Pos.to_uint p)) eqn:Hs; [contradiction|].
    rewrite <- Hs, digits_uint, DecimalPos.Unsigned.of_to. reflexivity.
Qed.

(** What [%d] prints, [Atoi] reads back. *)
Lemma Atoi_Itoa (n : Z) :
  (strconv.minInt <= n <= strconv.maxInt)%Z ->
  strconv.Atoi (strconv.Itoa n) = (n, None).
Proof. intros Hn. exact (Atoi_decimal _ n (signedDecimal_Itoa n) Hn). Qed.

Lemma allDigits_digits (s : string) (n : Z) :
  allDigits s = false -> strconv.digits s n = None.
Proof.
  revert n. induction s as [|c s IH]; intros n H; [discriminate H|].
  cbn [allDigits strconv.digits] in *.
  destruct (strconv.isDigit c); [|reflexivity]. now apply IH.
Qed.

(** A text of fewer than 19 octets that is no decimal number makes
    [Atoi] return 0. *)
Lemma Atoi_not_decimal (s : string) :
  String.length s < 19 -> isDecimal s = false -> fst (strconv.Atoi s) = 0%Z.
Proof.
  intros Hlen Hnot. unfold strconv.Atoi.
  destruct s as [|c s]; [reflexivity|].
  apply Nat.ltb_lt in Hlen. rewrite Hlen. cbn [String.length Nat.ltb Nat.leb andb].
  assert (Hnone : strconv.signedDecimal (String c s) = None).
  { unfold isDecimal in Hnot. unfold strconv.signedDecimal.
    destruct (Ascii.eqb c "-"); cbn [orb] in Hnot.
    - destruct s as [|d s]; [reflexivity|].
      cbn [String.eqb negb andb] in Hnot. now rewrite (allDigits_digits _ 0 Hnot).
    - destruct (Ascii.eqb c "+").
      + destruct s as [|d s]; [reflexivity|].
        cbn [String.eqb negb andb] in Hnot. now rewrite (allDigits_digits _ 0 Hnot).
      + now rewrite (allDigits_digits _ 0 Hnot). }
  now rewrite Hnone.
Qed.

Lemma has_append (a b : string) (c : ascii) :
  net.has (a ++ b) c = net.has a c || net.has b c.
Proof.
  induction a as [|d a IH]; [reflexivity|].
  simpl append. rewrite !has_cons, IH. apply orb_assoc.
Qed.

Lemma uint_no_colon (d : Decimal.uint) :
  net.has (NilEmpty.string_of_uint d) ":" = false.
Proof. induction d; [reflexivity | simpl; rewrite has_cons; exact IHd ..]. Qed.

Lemma Itoa_no_colon (n : Z) : net.has (strconv.Itoa n) ":" = false.
Proof.
  unfold strconv.Itoa. destruct n as [|p|p]; [reflexivity | |];
    cbn [Z.to_int NilZero.string_of_int];
    pose proof (DecimalPos.Unsigned.to_uint_nonnil p) as Hnn;
    rewrite (NilZero_nonnil _ Hnn); [|rewrite has_cons]; apply uint_no_colon.
Qed.

(** C5, as the code has it: the key host is the text before the first
    colon of the remote address; the key port is what [strconv.Atoi]
    returns, its error dropped, for the text between the first colon
    and the second: the number when that text is the decimal text of
    an [int], and 0 when it has fewer than 19 octets and is no decimal
    number; and for a remote address in the bracket form of IPv6,
    whose first piece opens a bracket and does not close it, the key
    matches no line of a state table whose brackets hold ports, so the
    resolution fails. *)
Theorem LocalToRemote_key_of_bracketed (g rest : string) :
  net.has g ":" = false ->
  let segment := hd "" (strings.Split rest ":") in
  lookupKey (g ++ ":" ++ rest) = Return (g, fst (strconv.Atoi segment))
  /\ (forall v : Z,
        (- 2 ^ 63 <= v <= 2 ^ 63 - 1)%Z -> segment = strconv.Itoa v ->
        fst (strconv.Atoi segment) = v)
  /\ (String.length segment < 19 -> isDecimal segment = false ->
      fst (strconv.Atoi segment) = 0%Z)
  /\ forall out : string,
       strings.HasPrefix g "[" = true ->
       net.has g "]" = false ->
       (forall line, In line (strings.Split out "010") -> bracketsHoldPorts line = true) ->
       LocalToRemote (out, None) (g ++ ":" ++ rest)
       = Return ("", 0%Z, Some (Errorf "could not resolve original destination")).
Proof.
  intros Hg segment.
  assert (Hkey : lookupKey (g ++ ":" ++ rest) = Return (g, fst (strconv.Atoi segment))).
  { unfold lookupKey. simpl append. rewrite (Split_first g rest ":" Hg).
    subst segment. pose proof (Split_nonempty rest ":") as Hne.
    destruct (strings.Split rest ":") as [|x xs]; [contradiction|]. reflexivity. }
  split; [exact Hkey|]. split; [|split].
  - intros v Hv ->. now rewrite (Atoi_Itoa v Hv).
  - apply Atoi_not_decimal.
  - intros out Hopen Hclose Hlines.
    rewrite LocalToRemote_key, Hkey. cbn [bind fst snd PfctlLookup].
    unfold lookup. rewrite lookupLines_no_match; [reflexivity|].
    intros line Hin. specialize (Hlines line Hin).
    simpl append.
    rewrite (Contains_port line g _ ":" Hlines Hopen Hclose eq_refl eq_refl).
    rewrite (Contains_port line g _ "[" Hlines Hopen Hclose eq_refl eq_refl).
    apply andb_false_r.
Qed.

Lemma LocalToRemote_key_of_bracketed_witness :
  LocalToRemote (line6, None) "[2a01:e35:8bae:50f0:9d9b:ef0d:2de3:b733]:58505"
  = Return ("", 0%Z, Some (Errorf "could not resolve original destination")).
Proof.
  apply (proj2 (proj2 (proj2 (LocalToRemote_key_of_bracketed
                                "[2a01" "e35:8bae:50f0:9d9b:ef0d:2de3:b733]:58505"
                                eq_refl)))).
  - reflexivity.
  - reflexivity.
  - simpl strings.Split. intros line [<-|[]]. vm_compute. reflexivity.
Defined.

(** C5 as it is stated fails: a remote address with more than one
    colon whose second piece is a decimal number gives a key port that
    is not 0. *)
Lemma lookupKey_port_not_always_zero :
  ~ (forall remote : string,
       1 < count ":" remote ->
       exists host, lookupKey remote = Return (host, 0%Z)).
Proof.
  intros H.
  destruct (H "[2001:470::1]:5000") as [host Hkey].
  - vm_compute. lia.
  - vm_compute in Hkey. discriminate Hkey.
Qed.

(** ** The sniffer *)

Lemma take_drop (n : nat) (s : string) : io.take n s ++ io.drop n s = s.
Proof.
  revert s. induction n as [|n IH]; intros [|c s]; simpl; try reflexivity.
  now rewrite IH.
Qed.

Lemma drop_empty (n : nat) : io.drop n "" = "".
Proof. destruct n; reflexivity. Qed.

(** What a reader delivers does not change when some of it is read
    into a buffer and the buffer is put back in front. *)
Lemma read_replay (n : nat) (front live : string) :
  let '(buf, front', live') := io.read n front live in
  (buf ++ front') ++ live' = front ++ live.
Proof.
  unfold io.read. revert n.
  induction front as [|c f IH]; intros n.
  - simpl. rewrite drop_empty, Nat.sub_0_r, append_empty. apply take_drop.
  - destruct n as [|n]; [reflexivity|].
    simpl. f_equal. apply IH.
Qed.

Lemma take_all (n : nat) (s : string) :
  String.length s <= n -> io.take n s = s.
Proof.
  revert s. induction n as [|n IH]; intros [|c s] Hle; simpl in *; try reflexivity.
  - lia.
  - f_equal. apply IH. lia.
Qed.

Lemma drop_all (n : nat) (s : string) :
  String.length s <= n -> io.drop n s = "".
Proof.
  revert s. induction n as [|n IH]; intros [|c s] Hle; simpl in *; try reflexivity.
  - lia.
  - apply IH. lia.
Qed.

Lemma length_take (n : nat) (s : string) :
  String.length (io.take n s) = Nat.min n (String.length s).
Proof.
  revert s. induction n as [|n IH]; intros [|c s]; simpl; try reflexivity.
  now rewrite IH.
Qed.

(** The header array followed by the rest of the connection: the
    input, and the zeros of the array the read did not fill. *)
Lemma header_replay (n : nat) (s : string) :
  (io.take n s ++ io.zeros (n - String.length (io.take n s))) ++ io.drop n s
  = s ++ io.zeros (n - String.length s).
Proof.
  destruct (Nat.le_gt_cases n (String.length s)) as [Hle|Hgt].
  - rewrite length_take, Nat.min_l by exact Hle.
    replace (n - String.length s) with 0 by lia.
    rewrite Nat.sub_diag. simpl. rewrite !append_empty. apply take_drop.
  - rewrite take_all, drop_all by lia. now rewrite append_empty.
Qed.

Section Sniffer.

Context {http : HttpLib} {dissector : TlsDissector}.

(** What the downstream reader gets from the sniffer, whatever the
    path: the input followed by as many zero octets as the input is
    short of the record header. *)
Lemma sniff_delivers (s : string) :
  delivered s = s ++ io.zeros (RecordHeaderLen - String.length s).
Proof.
  unfold delivered, sniff, io.ReadFull.
  cbn [io.read append String.length]. rewrite drop_empty, Nat.sub_0_r, append_empty.
  set (hdr := io.take RecordHeaderLen s
              ++ io.zeros (RecordHeaderLen - String.length (io.take RecordHeaderLen s))).
  pose proof (header_replay RecordHeaderLen s) as Hhdr. fold hdr in Hhdr.
  destruct (isTLS hdr _); [exact Hhdr|].
  destruct (ReadRequest (hdr ++ io.drop RecordHeaderLen s)) as [n r].
  pose proof (read_replay n hdr (io.drop RecordHeaderLen s)) as Hread.
  unfold io.read in Hread |- *. cbv beta iota in Hread |- *.
  rewrite Hhdr in Hread at 2.
  destruct r; exact Hread.
Qed.

End Sniffer.

Lemma length_zeros (n : nat) : String.length (io.zeros n) = n.
Proof. induction n as [|n IH]; simpl; [reflexivity | now rewrite IH]. Qed.

Lemma get_take (i n : nat) (s : string) :
  i < n -> String.get i (io.take n s) = String.get i s.
Proof.
  revert i s. induction n as [|n IH]; intros i s Hi; [lia|].
  destruct s as [|c s]; [reflexivity|].
  destruct i as [|i]; [reflexivity|].
  simpl. apply IH. lia.
Qed.

Lemma octet_range (s : string) (i : nat) : (0 <= octet s i < 256)%Z.
Proof.
  unfold octet. destruct (String.get i s) as [c|]; [|lia].
  pose proof (nat_ascii_bounded c). lia.
Qed.

(** Two octets read as a big-endian number: the first times 256 plus
    the second. *)
Lemma lor_shiftl_8 (a b : Z) :
  (0 <= a)%Z -> (0 <= b < 256)%Z ->
  Z.lor b (Z.shiftl a 8) = (a * 256 + b)%Z.
Proof.
  intros Ha Hb.
  rewrite Z.shiftl_mul_pow2 by lia.
  pose proof (Z.add_lor_land b (a * 2 ^ 8)) as Hadd.
  assert (Hland : Z.land b (a * 2 ^ 8) = 0%Z).
  { apply Z.bits_inj'. intros n Hn.
    rewrite Z.land_spec, Z.bits_0.
    destruct (Z.ltb_spec n 8) as [Hlt|Hge].
    - rewrite Z.mul_pow2_bits_low by lia. apply andb_false_r.
    - destruct (Z.eq_dec b 0) as [->|Hnz]; [now rewrite Z.bits_0|].
      rewrite (Z.bits_above_log2 b n); [reflexivity | lia |].
      apply Z.lt_le_trans with 8%Z; [|exact Hge].
      apply Z.log2_lt_pow2; lia. }
  rewrite Hland in Hadd. change (2 ^ 8)%Z with 256%Z in *. lia.
Qed.

Lemma version_marker (s : string) :
  (BigEndianUint16 s 1 =? VersionTLS10)%Z
  = (octet s 1 =? 3)%Z && (octet s 2 =? 1)%Z.
Proof.
  unfold BigEndianUint16, VersionTLS10. cbn [Nat.add].
  pose proof (octet_range s 1). pose proof (octet_range s 2).
  rewrite lor_shiftl_8 by lia.
  destruct (Z.eqb_spec (octet s 1) 3) as [->|]; destruct (Z.eqb_spec (octet s 2) 1);
    cbn [andb]; try (apply Z.eqb_neq; lia); apply Z.eqb_eq; lia.
Qed.

(** The test of the sniffer on the array it read is the test on the
    input: a whole header, of type handshake and version TLS 1.0. *)
Lemma isTLS_header (s : string) :
  let '(hdr, err, _, _) := io.ReadFull RecordHeaderLen "" s in
  isTLS hdr err = beginsWithHandshakeHeader s.
Proof.
  unfold io.ReadFull, io.read, beginsWithHandshakeHeader. cbn [append].
  rewrite length_take.
  destruct (Nat.leb_spec RecordHeaderLen (String.length s)) as [Hle|Hgt].
  - rewrite Nat.min_l, Nat.eqb_refl, Nat.sub_diag by exact Hle.
    cbn [io.zeros]. rewrite append_empty.
    unfold isTLS. rewrite version_marker.
    unfold octet. rewrite !get_take by (unfold RecordHeaderLen; lia).
    cbn [andb]. now rewrite andb_assoc.
  - rewrite Nat.min_r by lia.
    destruct (Nat.eqb_spec (String.length s) RecordHeaderLen) as [Heq|_]; [lia|].
    cbn [andb]. now destruct (String.length s =? 0)%nat.
Qed.

Section Classification.

Context {http : HttpLib} {dissector : TlsDissector}.

(** C2: what the reader handed on by the sniffer delivers, on each of
    the three paths.  For an input of at least [RecordHeaderLen] octets
    it is the input.  For a shorter input it is not: the whole header
    array is replayed, so the input is followed by zero octets that the
    client never sent. *)
Theorem sniff_replay (s : string) :
  (RecordHeaderLen <= String.length s -> delivered s = s)
  /\ (String.length s < RecordHeaderLen ->
      delivered s = s ++ io.zeros (RecordHeaderLen - String.length s)
      /\ delivered s <> s).
Proof.
  pose proof (sniff_delivers s) as H.
  split.
  - intros Hle. rewrite H. replace (RecordHeaderLen - String.length s) with 0 by lia.
    apply append_empty.
  - intros Hlt. split; [exact H|].
    rewrite H. intros Heq. apply (f_equal String.length) in Heq.
    rewrite length_append, length_zeros in Heq. lia.
Qed.

(** C7: the sniffer classifies as the specification says, provided the
    HTTP parser accepts no stream of at most [RecordHeaderLen] octets
    (no request is that short). *)
Theorem sniff_classification
    (Hshort : forall t, String.length t <= RecordHeaderLen -> parsesAsRequest t = false)
    (s : string) :
  let kind := fst (fst (sniff s)) in
  (beginsWithHandshakeHeader s = true -> kind = TLS)
  /\ (beginsWithHandshakeHeader s = false -> parsesAsRequest s = true -> kind = HTTP)
  /\ (beginsWithHandshakeHeader s = false -> parsesAsRequest s = false -> kind = Opaque).
Proof.
  assert (Hkind : fst (fst (sniff s)) = classification s).
  { unfold sniff, classification.
    pose proof (isTLS_header s) as Htls.
    pose proof (header_replay RecordHeaderLen s) as Hhdr.
    unfold io.ReadFull, io.read in *. cbn [append String.length] in *.
    rewrite drop_empty, Nat.sub_0_r, append_empty.
    rewrite Htls.
    destruct (beginsWithHandshakeHeader s); [reflexivity|].
    rewrite Hhdr.
    assert (Hparse : parsesAsRequest (s ++ io.zeros (RecordHeaderLen - String.length s))
                     = parsesAsRequest s).
    { destruct (Nat.le_gt_cases RecordHeaderLen (String.length s)) as [Hle|Hgt].
      - replace (RecordHeaderLen - String.length s) with 0 by lia.
        cbn [io.zeros]. now rewrite append_empty.
      - rewrite !Hshort; [reflexivity | lia |].
        rewrite length_append, length_zeros. lia. }
    unfold parsesAsRequest in Hparse at 1. rewrite <- Hparse.
    destruct (ReadRequest (s ++ io.zeros (RecordHeaderLen - String.length s))) as [n r].
    cbn [snd]. destruct r; reflexivity. }
  cbv zeta. rewrite Hkind. unfold classification.
  repeat split; intros; repeat match goal with H : _ = _ |- _ => rewrite H end; reflexivity.
Qed.

End Classification.

(** ** The handler *)

Lemma LastIndexByte_none (s : string) (c : ascii) :
  net.has s c = false -> net.LastIndexByte s c = None.
Proof.
  induction s as [|d s IH]; [reflexivity|].
  rewrite has_cons. intros H. apply orb_false_elim in H as [Hd Hs].
  simpl. now rewrite (IH Hs), Hd.
Qed.

(** A host without colon carries no port; port 80 is joined to it. *)
Lemma httpHost_default_port (host : string) :
  net.has host ":" = false -> httpHost host = host ++ ":80".
Proof.
  intros H. unfold httpHost, net.SplitHostPort.
  rewrite (LastIndexByte_none host ":" H). cbn.
  unfold net.JoinHostPort. now rewrite H.
Qed.

(** ** Addresses *)

Lemma LastIndexByte_last (h p : string) (c : ascii) :
  net.has p c = false ->
  net.LastIndexByte (h ++ String c p) c = Some (String.length h).
Proof.
  intros Hp. induction h as [|d h IH]; simpl.
  - now rewrite (LastIndexByte_none p c Hp), Ascii.eqb_refl.
  - now rewrite IH.
Qed.

Lemma substring_head (a b : string) :
  substring 0 (String.length a) (a ++ b) = a.
Proof.
  induction a as [|c a IH]; simpl.
  - now destruct b.
  - now rewrite IH.
Qed.

Lemma substring_tail (a b : string) :
  substring (String.length a) (String.length b) (a ++ b) = b.
Proof.
  induction a as [|c a IH]; simpl; [|exact IH].
  pose proof (substring_head b "") as H. now rewrite append_empty in H.
Qed.

Lemma from_0 (s : string) : net.from s 0 = s.
Proof.
  unfold net.from. rewrite Nat.sub_0_r.
  pose proof (substring_head s "") as H. now rewrite append_empty in H.
Qed.

Lemma bare_parts (s : string) :
  bare s = true ->
  net.has s ":" = false /\ net.has s "[" = false /\ net.has s "]" = false.
Proof.
  unfold bare. intros H.
  apply andb_true_iff in H as [H Hc]. apply andb_true_iff in H as [Ha Hb].
  repeat split; now apply negb_true_iff.
Qed.

(** A bare host and a bare port, joined by a colon, split again into
    the two. *)
Lemma SplitHostPort_join (h p : string) :
  bare h = true -> bare p = true ->
  net.SplitHostPort (h ++ ":" ++ p) = (h, p, None).
Proof.
  intros Hh Hp.
  destruct (bare_parts h Hh) as [Hh1 [Hh2 Hh3]].
  destruct (bare_parts p Hp) as [Hp1 [Hp2 Hp3]].
  unfold net.SplitHostPort. simpl append.
  rewrite (LastIndexByte_last h p ":" Hp1).
  assert (Hopen : strings.HasPrefix (h ++ String ":" p) "[" = false).
  { destruct h as [|d h]; [reflexivity|].
    rewrite has_cons in Hh2. apply orb_false_elim in Hh2 as [Hd _].
    simpl. now rewrite Hd. }
  rewrite Hopen. unfold net.slice. rewrite Nat.sub_0_r, substring_head, Hh1.
  rewrite from_0, !has_append, !has_cons, Hh2, Hh3, Hp2, Hp3. cbn.
  unfold net.from. rewrite length_append. cbn [String.length].
  replace (String.length h + S (String.length p) - (String.length h + 1))
    with (String.length p) by lia.
  replace (String.length h + 1) with (String.length (h ++ ":"))
    by (rewrite length_append; reflexivity).
  replace (h ++ String ":" p) with ((h ++ ":") ++ p)
    by (rewrite append_assoc; reflexivity).
  now rewrite substring_tail.
Qed.

Lemma bare_no_port (h : string) :
  bare h = true -> net.SplitHostPort h = ("", "", Some (Errorf "missing port in address")).
Proof.
  intros Hh. destruct (bare_parts h Hh) as [Hh1 _].
  unfold net.SplitHostPort. now rewrite (LastIndexByte_none h ":" Hh1).
Qed.

Section HandlerFacts.

Context {http : HttpLib} {dissector : TlsDissector}.

Variable ipText : string -> string.

(** The sniffer on an input that fills the header array. *)
Lemma sniff_whole_header (s : string) :
  RecordHeaderLen <= String.length s ->
  sniff s =
  if beginsWithHandshakeHeader s
  then (TLS, io.take RecordHeaderLen s, io.drop RecordHeaderLen s)
  else
    let '(n, r) := ReadRequest s in
    let '(buf, front, live) :=
      io.read n (io.take RecordHeaderLen s) (io.drop RecordHeaderLen s) in
    (match r with Ok _ => HTTP | Failed _ => Opaque end, buf ++ front, live).
Proof.
  intros Hle. unfold sniff.
  pose proof (isTLS_header s) as Htls.
  unfold io.ReadFull in *. unfold io.read at 1 in Htls. unfold io.read at 1.
  cbn [append String.length] in *.
  rewrite drop_empty, Nat.sub_0_r, append_empty.
  rewrite length_take, Nat.min_l, Nat.sub_diag in * by exact Hle.
  cbn [io.zeros] in *. rewrite append_empty in *.
  rewrite Htls. destruct (beginsWithHandshakeHeader s); [reflexivity|].
  rewrite take_drop.
  destruct (ReadRequest s) as [n r].
  destruct (io.read n (io.take RecordHeaderLen s) (io.drop RecordHeaderLen s))
    as [[buf front] live].
  destruct r; reflexivity.
Qed.

(** A failed state command makes the resolver panic, whatever the
    remote address. *)
Lemma LocalToRemote_panics (out : string) (e : error) (remote : string) :
  exists v, LocalToRemote (out, Some e) remote = Panic v.
Proof.
  rewrite LocalToRemote_key.
  destruct (lookupKey remote) as [[host port]|v]; cbn [bind fst snd PfctlLookup].
  - destruct e as [msg]. now exists msg.
  - now exists v.
Qed.

(** C1: in state-table mode a failure of the state command does not
    become an error of the connection.  [PfctlLookup] panics, so
    [Handle] logs nothing and returns nothing: its deferred close runs
    and the panic goes on to the caller of [Handle]. *)
Theorem Handle_state_query_failure_panics
    (out : string) (e : error) (h : redirectHandler) (conn : Conn) :
  tproxy (md h) = false ->
  checkRateLimit h (RemoteAddr conn) = true ->
  exists v, Handle ipText (out, Some e) h conn = ([ConnClose], Panic v).
Proof.
  intros Hmode Hrate.
  unfold Handle, handleBody, originalDst, getOriginalDstAddr.
  rewrite Hrate, Hmode. cbn [negb].
  destruct (LocalToRemote_panics out e (net.Text (RemoteAddr conn))) as [v Hv].
  rewrite Hv. cbn. now exists v.
Qed.

(** C6, as the code has it: on a stream the sniffer classifies as HTTP,
    whose request names a host without port, the handler dials the host
    at port 80, writes to the upstream the request as [req.Write]
    prints it, reads one response and writes it to the client as
    [resp.Write] prints it, closes the upstream and returns. *)
Theorem dispatch_http_single_exchange
    (h : redirectHandler) (conn : Conn) (dstAddr : net.Addr)
    (n : nat) (req : Request) (host : string) (cc : Upstream) (resp : Response) :
  sniffing (md h) = true ->
  RecordHeaderLen <= String.length (input conn) ->
  beginsWithHandshakeHeader (input conn) = false ->
  ReadRequest (input conn) = (n, Ok req) ->
  Host req = host ->
  net.has host ":" = false ->
  bypassed h (host ++ ":80") = false ->
  router h "tcp" (host ++ ":80") = Ok cc ->
  upWriteErr cc = None ->
  ReadResponse (reply cc) req = Ok resp ->
  writeErr conn = None ->
  dispatch h conn dstAddr
  = ([Dial "tcp" (host ++ ":80"); UpWrite (RequestWrite req);
      ClientWrite (ResponseWrite resp); UpClose], None).
Proof.
  intros Hsniff Hlen Htls Hreq Hhost Hport Hbypass Hdial Hup Hresp Hdown.
  unfold dispatch. rewrite Hsniff, (sniff_whole_header _ Hlen), Htls, Hreq.
  pose proof (read_replay n (io.take RecordHeaderLen (input conn))
                (io.drop RecordHeaderLen (input conn))) as Hreplay.
  destruct (io.read n _ _) as [[buf front] live].
  rewrite take_drop in Hreplay.
  unfold handleHTTP. rewrite Hreplay, Hreq. cbn [snd].
  rewrite Hhost, (httpHost_default_port host Hport), Hbypass, Hdial, Hup, Hresp, Hdown.
  reflexivity.
Qed.

(** The loop of [getServerName] finds the first server-name
    extension, wherever it stands in the list. *)
Lemma serverName_find (exts : list Extension) :
  serverName exts
  = match find isServerName exts with
    | Some (ServerNameExtension name) => name
    | _ => ""
    end.
Proof.
  induction exts as [|[name|type] exts IH]; [reflexivity | reflexivity | exact IH].
Qed.

Lemma httpsHost_routingTarget (exts : list Extension) (dstAddr : net.Addr) :
  httpsHost (serverName exts) dstAddr
  = routingTarget (sniHost exts) (net.Text dstAddr).
Proof.
  rewrite serverName_find. unfold sniHost.
  destruct (find isServerName exts) as [[[|c name]|type]|]; try reflexivity.
  unfold httpsHost, routingTarget, carriesPort, portOf. cbn [String.eqb].
  destruct (net.SplitHostPort (String c name)) as [[hh hp] [herr|]]; [|reflexivity].
  destruct (net.SplitHostPort (net.Text dstAddr)) as [[dh dp] derr].
  destruct dp; reflexivity.
Qed.

(** The routing target for names and addresses without brackets. *)
Lemma routingTarget_cases (sni : option string) (dst : string) :
  (sni = None -> routingTarget sni dst = dst)
  /\ (forall host, sni = Some host -> bare host = true ->
        (forall dhost dport,
           dst = dhost ++ ":" ++ dport -> bare dhost = true -> bare dport = true ->
           dport <> "" -> routingTarget sni dst = host ++ ":" ++ dport)
        /\ (bare dst = true -> routingTarget sni dst = host ++ ":443"))
  /\ (forall host port, sni = Some (host ++ ":" ++ port) ->
        bare host = true -> bare port = true ->
        routingTarget sni dst = host ++ ":" ++ port).
Proof.
  split; [now intros ->|]. split.
  - intros host -> Hh.
    assert (Hjoin : forall p, net.JoinHostPort host p = host ++ ":" ++ p).
    { intros p. unfold net.JoinHostPort. now destruct (bare_parts host Hh) as [-> _]. }
    unfold routingTarget, carriesPort, portOf. rewrite (bare_no_port host Hh). split.
    + intros dhost dport -> Hdh Hdp Hne.
      rewrite (SplitHostPort_join dhost dport Hdh Hdp), Hjoin.
      destruct dport; [contradiction | reflexivity].
    + intros Hd. now rewrite (bare_no_port dst Hd), Hjoin.
  - intros host port -> Hh Hp. unfold routingTarget, carriesPort.
    now rewrite (SplitHostPort_join host port Hh Hp).
Qed.

(** C8: on the TLS path, once the ClientHello is decoded, the address
    the handler asks the bypass about and dials is the routing target
    of the specification: the original destination as it is when the
    ClientHello has no SNI host; else the SNI host, as it is when it
    carries a port, and otherwise joined with the port of the original
    destination, or with 443 when the destination has none.  For names
    and addresses without brackets the target is spelled out. *)
Theorem handleHTTPS_routing_target
    (h : redirectHandler) (front live : string) (dstAddr : net.Addr)
    (n : nat) (opaque : string) (exts : list Extension) :
  ReadRecord (front ++ live) = (n, Ok opaque) ->
  Decode opaque = Ok exts ->
  let sni := sniHost exts in
  let dst := net.Text dstAddr in
  let target := routingTarget sni dst in
  let trace := fst (handleHTTPS h front live dstAddr) in
  (bypassed h target = true -> trace = [LogBypass target])
  /\ (bypassed h target = false -> hd_error trace = Some (Dial "tcp" target))
  /\ (sni = None -> target = dst)
  /\ (forall host, sni = Some host -> bare host = true ->
        (forall dhost dport,
           dst = dhost ++ ":" ++ dport -> bare dhost = true -> bare dport = true ->
           dport <> "" -> target = host ++ ":" ++ dport)
        /\ (bare dst = true -> target = host ++ ":443"))
  /\ (forall host port, sni = Some (host ++ ":" ++ port) ->
        bare host = true -> bare port = true ->
        target = host ++ ":" ++ port).
Proof.
  intros Hrecord Hdecode sni dst target trace. subst trace.
  unfold handleHTTPS, getServerName. rewrite Hrecord, Hdecode.
  destruct (io.read n front live) as [[buf front'] live'].
  rewrite httpsHost_routingTarget. fold sni dst target.
  split; [intros Hb; now rewrite Hb|].
  split; [intros Hb; rewrite Hb; destruct (router h "tcp" target); reflexivity|].
  exact (routingTarget_cases sni dst).
Qed.

(** C9: on each of the three paths, when the bypass holds the
    destination the path resolved, [Handle] logs the bypass, closes the
    connection and returns nil; nothing is dialled. *)
Theorem Handle_bypass_short_circuit
    (pfctl : string * option error) (h : redirectHandler) (conn : Conn)
    (dstAddr : net.Addr) (d : string) :
  checkRateLimit h (RemoteAddr conn) = true ->
  originalDst ipText pfctl h conn = Return (Ok dstAddr) ->
  destination h conn dstAddr = Some d ->
  bypassed h d = true ->
  Handle ipText pfctl h conn = ([LogBypass d; ConnClose], Return None).
Proof.
  intros Hrate Hdst Hdest Hbypass.
  unfold Handle, handleBody. rewrite Hrate, Hdst. cbn [negb].
  assert (Hd : dispatch h conn dstAddr = ([LogBypass d], None)).
  { unfold dispatch. unfold destination in Hdest.
    destruct (sniffing (md h)).
    - destruct (sniff (input conn)) as [[[| |] front] live].
      + unfold handleHTTPS.
        destruct (getServerName (front ++ live)) as [k [host|e]]; [|discriminate Hdest].
        cbn [snd] in Hdest. injection Hdest as <-.
        destruct (io.read k front live) as [[buf front'] live'].
        now rewrite Hbypass.
      + unfold handleHTTP.
        destruct (snd (ReadRequest (front ++ live))) as [req|e]; [|discriminate Hdest].
        injection Hdest as <-. now rewrite Hbypass.
      + injection Hdest as <-. unfold relay. now rewrite Hbypass.
    - injection Hdest as <-. unfold relay. now rewrite Hbypass. }
  rewrite Hd. reflexivity.
Qed.

(** C10: on the TLS path, when the leading record cannot be read or
    its payload cannot be decoded as a ClientHello, [Handle] logs the
    error, closes the connection and returns the error; nothing is
    dialled and nothing is relayed. *)
Theorem Handle_client_hello_error
    (pfctl : string * option error) (h : redirectHandler) (conn : Conn)
    (dstAddr : net.Addr) (e : error) :
  checkRateLimit h (RemoteAddr conn) = true ->
  originalDst ipText pfctl h conn = Return (Ok dstAddr) ->
  sniffing (md h) = true ->
  beginsWithHandshakeHeader (input conn) = true ->
  (snd (ReadRecord (input conn)) = Failed e
   \/ exists opaque, snd (ReadRecord (input conn)) = Ok opaque
                     /\ Decode opaque = Failed e) ->
  Handle ipText pfctl h conn = ([LogError e; ConnClose], Return (Some e)).
Proof.
  intros Hrate Hdst Hsniff Htls Hhello.
  assert (Hlen : RecordHeaderLen <= String.length (input conn)).
  { unfold beginsWithHandshakeHeader in Htls.
    destruct (Nat.leb_spec RecordHeaderLen (String.length (input conn)));
      [assumption | discriminate Htls]. }
  unfold Handle, handleBody. rewrite Hrate, Hdst. cbn [negb].
  unfold dispatch. rewrite Hsniff, (sniff_whole_header _ Hlen), Htls.
  unfold handleHTTPS, getServerName. rewrite take_drop.
  destruct (ReadRecord (input conn)) as [k record]. cbn [snd] in Hhello.
  destruct Hhello as [-> | [opaque [-> Hdecode]]]; [|rewrite Hdecode];
    unfold io.read; reflexivity.
Qed.

End HandlerFacts.

(** ** The models at work *)

Lemma length_cut (s a b : string) (c : ascii) :
  gohttp.cut s c = Some (a, b) ->
  String.length s = String.length a + 1 + String.length b.
Proof.
  revert a. induction s as [|d s IH]; intros a; simpl; [discriminate|].
  destruct (Ascii.eqb d c).
  - intros [= <- <-]. reflexivity.
  - destruct (gohttp.cut s c) as [[a' b']|]; [|discriminate].
    intros [= <- <-]. simpl. rewrite (IH a' eq_refl). reflexivity.
Qed.

Lemma length_stripCR (s : string) :
  String.length (gohttp.stripCR s) <= String.length s.
Proof.
  induction s as [|c s IH]; [apply le_n|].
  destruct s as [|d s].
  - simpl. destruct (Ascii.eqb c "013"); simpl; lia.
  - change (gohttp.stripCR (String c (String d s)))
      with (String c (gohttp.stripCR (String d s))).
    cbn [String.length] in *. lia.
Qed.

Lemma length_Split_head (s l : string) (ls : list string) (c : ascii) :
  strings.Split s c = l :: ls -> String.length l <= String.length s.
Proof.
  revert l ls. induction s as [|d s IH]; intros l ls; simpl.
  - intros [= <- <-]. apply le_n.
  - destruct (Ascii.eqb d c).
    + intros [= <- <-]. simpl. lia.
    + destruct (strings.Split s c) as [|x xs] eqn:Hs.
      * intros [= <- <-]. simpl. lia.
      * intros [= <- <-]. simpl. specialize (IH x xs eq_refl). lia.
Qed.

Lemma untilBlank_first (l line : string) (ps head after : list string) :
  gohttp.untilBlank (l :: ps) = Some (line :: head, after) ->
  line = gohttp.stripCR l.
Proof.
  simpl. destruct ps as [|p ps]; [discriminate|].
  destruct (String.eqb (gohttp.stripCR l) ""); [discriminate|].
  destruct (gohttp.untilBlank (p :: ps)) as [[h a]|]; [|discriminate].
  now intros [= <- _ _].
Qed.

Lemma validVersion_length (v : string) :
  gohttp.validVersion v = true -> String.length v = 8.
Proof.
  unfold gohttp.validVersion. intros H.
  apply String.eqb_eq in H. now subst v.
Qed.

(** A request the model accepts has at least the eight octets of its
    protocol version; no stream as short as a record header parses. *)
Lemma gohttp_short (t : string) :
  String.length t <= RecordHeaderLen -> parsesAsRequest (http := goHttp) t = false.
Proof.
  intros Hlen. unfold parsesAsRequest. cbn [ReadRequest goHttp].
  unfold gohttp.ReadRequest.
  destruct (strings.Split t "010") as [|l ps] eqn:Hsplit; [reflexivity|].
  destruct (gohttp.untilBlank (l :: ps)) as [[head after]|] eqn:Hhead; [|reflexivity].
  cbn [snd].
  destruct head as [|line hlines]; [reflexivity|].
  apply untilBlank_first in Hhead.
  destruct (gohttp.cut line " ") as [[method rest]|] eqn:Hcut1; [|reflexivity].
  destruct (gohttp.cut rest " ") as [[uri proto]|] eqn:Hcut2; [|reflexivity].
  destruct (gohttp.validVersion proto) eqn:Hv.
  - exfalso.
    apply validVersion_length in Hv.
    apply length_cut in Hcut1, Hcut2.
    pose proof (length_stripCR l). pose proof (length_Split_head _ _ _ _ Hsplit).
    subst line. unfold RecordHeaderLen in Hlen. lia.
  - rewrite andb_false_r. reflexivity.
Qed.

Lemma Handle_state_query_failure_panics_witness :
  exists v,
    Handle idText (line4, Some (Errorf "exit status 1"))
      (sampleHandler false true None) (sampleConn minimalGet)
    = ([ConnClose], Panic v).
Proof.
  apply (Handle_state_query_failure_panics idText line4 (Errorf "exit status 1")
           (sampleHandler false true None) (sampleConn minimalGet)).
  - reflexivity.
  - reflexivity.
Defined.

(** The run of C2's failing input: the client sends two octets and
    closes; the relay is handed five. *)
Lemma sniff_replay_witness :
  delivered "GE" = "GE" ++ io.zeros 3 /\ delivered "GE" <> "GE".
Proof.
  apply (proj2 (sniff_replay "GE")).
  vm_compute. lia.
Defined.

Lemma sniff_classification_witness :
  fst (fst (sniff minimalGet)) = HTTP.
Proof.
  apply (proj1 (proj2 (sniff_classification gohttp_short minimalGet))).
  - reflexivity.
  - reflexivity.
Defined.

Lemma dispatch_http_single_exchange_witness :
  dispatch (sampleHandler true true None) (sampleConn minimalGet)
    (net.mkAddr "tcp" "23.205.82.58:443")
  = ([Dial "tcp" "example.com:80";
      UpWrite ("GET / HTTP/1.1" ++ gohttp.CRLF ++ "Host: example.com" ++ gohttp.CRLF
               ++ "User-Agent: Go-http-client/1.1" ++ gohttp.CRLF ++ gohttp.CRLF);
      ClientWrite okResponse; UpClose], None).
Proof.
  refine (dispatch_http_single_exchange
            (sampleHandler true true None) (sampleConn minimalGet)
            (net.mkAddr "tcp" "23.205.82.58:443")
            (64 * 64) (gohttp.mkRequest "GET" "/" "HTTP/1.1" "example.com" [])
            "example.com" (mkUpstream okResponse None)
            (gohttp.mkResponse "HTTP/1.1 200 OK" [] "hi")
            _ _ _ _ _ _ _ _ _ _ _).
  - reflexivity.
  - vm_compute. lia.
  - reflexivity.
  - vm_compute. reflexivity.
  - reflexivity.
  - reflexivity.
  - reflexivity.
  - reflexivity.
  - reflexivity.
  - vm_compute. reflexivity.
  - reflexivity.
Defined.

(** C6 as it is stated fails: with the request writer of [net/http],
    the octets written to the upstream for the minimal request are not
    the octets received; a [User-Agent] line has been added. *)
Lemma http_request_not_forwarded_verbatim :
  fst (fst (sniff minimalGet)) = HTTP
  /\ forall w : string,
       In (UpWrite w)
          (fst (dispatch (sampleHandler true true None) (sampleConn minimalGet)
                  (net.mkAddr "tcp" "23.205.82.58:443"))) ->
       w <> minimalGet.
Proof.
  split; [vm_compute; reflexivity|].
  intros w Hin. vm_compute in Hin.
  destruct Hin as [H|[H|[H|[H|[]]]]]; try discriminate H.
  injection H as <-. vm_compute. discriminate.
Qed.

Lemma handleHTTPS_routing_target_witness :
  hd_error
    (fst (handleHTTPS (sampleHandler true true None)
            (tlsdissector.record (tlsdissector.clientHello (Some "example.com"))) ""
            (net.mkAddr "tcp" "23.205.82.58:8443")))
  = Some (Dial "tcp" "example.com:8443").
Proof.
  refine (proj1 (proj2 (handleHTTPS_routing_target
                   (sampleHandler true true None)
                   (tlsdissector.record (tlsdissector.clientHello (Some "example.com"))) ""
                   (net.mkAddr "tcp" "23.205.82.58:8443")
                   72
                   (tlsdissector.clientHello (Some "example.com"))
                   [ServerNameExtension "example.com"] _ _)) _).
  - vm_compute. reflexivity.
  - vm_compute. reflexivity.
  - reflexivity.
Defined.

Lemma Handle_bypass_short_circuit_witness :
  Handle idText (line4, None)
    (sampleHandler false true (Some (String.eqb "example.com:80")))
    (sampleConn minimalGet)
  = ([LogBypass "example.com:80"; ConnClose], Return None).
Proof.
  apply (Handle_bypass_short_circuit idText (line4, None)
           (sampleHandler false true (Some (String.eqb "example.com:80")))
           (sampleConn minimalGet) (net.TCPAddr "23.205.82.58" 443) "example.com:80").
  - reflexivity.
  - vm_compute. reflexivity.
  - vm_compute. reflexivity.
  - reflexivity.
Defined.

Lemma Handle_client_hello_error_witness :
  Handle idText (line4, None) (sampleHandler false true None)
    (sampleConn (tlsdissector.record "garbage"))
  = ([LogError tlsdissector.ErrBadType; ConnClose],
     Return (Some tlsdissector.ErrBadType)).
Proof.
  apply (Handle_client_hello_error idText (line4, None) (sampleHandler false true None)
           (sampleConn (tlsdissector.record "garbage"))
           (net.TCPAddr "23.205.82.58" 443)).
  - reflexivity.
  - vm_compute. reflexivity.
  - reflexivity.
  - reflexivity.
  - right. exists "garbage". split; reflexivity.
Defined.

(** * Further properties of the resolver *)

Lemma Split_app (s1 s2 : string) (c : ascii) :
  strings.Split (s1 ++ String c s2) c
  = (strings.Split s1 c ++ strings.Split s2 c)%list.
Proof.
  induction s1 as [|d s1 IH]; simpl.
  - now rewrite Ascii.eqb_refl.
  - rewrite IH. destruct (Ascii.eqb d c); [reflexivity|].
    pose proof (Split_nonempty s1 c) as Hne.
    destruct (strings.Split s1 c) as [|x xs]; [contradiction|]. reflexivity.
Qed.

Lemma Split_none (s : string) (c : ascii) :
  net.has s c = false -> strings.Split s c = [s].
Proof.
  induction s as [|d s IH]; [reflexivity|].
  rewrite has_cons. intros H. apply orb_false_elim in H as [Hd Hs].
  simpl. now rewrite Hd, (IH Hs).
Qed.

(** A piece free of the separator stays in the first piece. *)
Lemma Split_prefix (a b : string) (c : ascii) :
  net.has a c = false ->
  exists x xs, strings.Split b c = x :: xs
               /\ strings.Split (a ++ b) c = (a ++ x) :: xs.
Proof.
  intros Ha. pose proof (Split_nonempty b c) as Hne.
  destruct (strings.Split b c) as [|x xs] eqn:Hb; [contradiction|].
  exists x, xs. split; [reflexivity|].
  induction a as [|d a IH]; [exact Hb|].
  rewrite has_cons in Ha. apply orb_false_elim in Ha as [Hd Ha].
  simpl. now rewrite Hd, (IH Ha).
Qed.

Lemma Split_one_piece (s : string) (c : ascii) :
  nth_error (strings.Split s c) 1 = None -> net.has s c = false.
Proof.
  induction s as [|d s IH]; [reflexivity|].
  simpl. rewrite has_cons.
  pose proof (Split_nonempty s c) as Hne.
  destruct (Ascii.eqb d c).
  - destruct (strings.Split s c); [contradiction | discriminate].
  - destruct (strings.Split s c) as [|x xs]; [contradiction|].
    intros Hnone. apply IH. exact Hnone.
Qed.

Lemma index_nth_error {A : Type} (l : list A) (i : nat) (a : A) :
  nth_error l i = Some a -> index l i = Return a.
Proof. unfold index. now intros ->. Qed.

Lemma lookupLines_passes_over (specv4 specv6 : string) (l1 l2 : list string) :
  (forall line, In line l1 -> passedOver specv4 specv6 line = true) ->
  lookupLines specv4 specv6 (l1 ++ l2) = lookupLines specv4 specv6 l2.
Proof.
  induction l1 as [|line l1 IH]; intros Hp; [reflexivity|].
  assert (Hrest : lookupLines specv4 specv6 (l1 ++ l2) = lookupLines specv4 specv6 l2).
  { apply IH. intros l Hl. apply Hp. now right. }
  specialize (Hp line (or_introl eq_refl)). unfold passedOver in Hp.
  cbn [app lookupLines].
  destruct (strings.Contains line "ESTABLISHED:ESTABLISHED"); [|exact Hrest].
  cbn [negb orb] in Hp.
  destruct (strings.Contains line specv4).
  - destruct (nth_error (strings.Fields line) 4) as [f4|] eqn:Hf.
    + assert (Hlen : (4 <? List.length (strings.Fields line))%nat = true).
      { apply Nat.ltb_lt. apply nth_error_Some. now rewrite Hf. }
      rewrite Hlen, (index_nth_error _ _ _ Hf). cbn [bind].
      apply negb_true_iff in Hp. now rewrite Hp.
    + apply nth_error_None in Hf.
      destruct (Nat.ltb_spec 4 (List.length (strings.Fields line))); [lia | exact Hrest].
  - destruct (strings.Contains line specv6); [|exact Hrest].
    apply Nat.leb_le in Hp.
    destruct (Nat.ltb_spec 4 (List.length (strings.Fields line))); [lia | exact Hrest].
Qed.

(** X1: the lookup goes on after every line it passes over: a table
    text whose first lines are all passed over resolves as the text
    after them does. *)
Theorem lookup_passes_over (address : string) (port : Z) (s1 s2 : string) :
  (forall line, In line (strings.Split s1 "010") ->
     passedOver (address ++ ":" ++ strconv.Itoa port)
       (address ++ "[" ++ strconv.Itoa port ++ "]") line = true) ->
  lookup address port (s1 ++ String "010" s2) = lookup address port s2.
Proof.
  intros Hp. unfold lookup. rewrite Split_app.
  now apply lookupLines_passes_over.
Qed.

Lemma lookup_passes_over_witness :
  lookup "192.168.1.13" 57474
    ("ALL tcp 192.168.1.13:57474 -> 23.205.82.58:443       SYN_SENT:ESTABLISHED"
     ++ String "010" "192.168.1.13:57474 -> 23.205.82.58:443 ESTABLISHED:ESTABLISHED"
     ++ String "010" "ALL tcp 192.168.1.13:57474 -> 2606:4700::1:443 ESTABLISHED:ESTABLISHED"
     ++ String "010" line4)
  = lookup "192.168.1.13" 57474 line4.
Proof.
  apply (lookup_passes_over "192.168.1.13" 57474
           ("ALL tcp 192.168.1.13:57474 -> 23.205.82.58:443       SYN_SENT:ESTABLISHED"
            ++ String "010" "192.168.1.13:57474 -> 23.205.82.58:443 ESTABLISHED:ESTABLISHED"
            ++ String "010" "ALL tcp 192.168.1.13:57474 -> 2606:4700::1:443 ESTABLISHED:ESTABLISHED")
           line4).
  simpl strings.Split.
  intros line [<-|[<-|[<-|[]]]]; vm_compute; reflexivity.
Defined.

Lemma lookup_colon_line
    (address : string) (port : Z) (line rest dhost dport : string) :
  net.has line "010" = false ->
  strings.Contains line "ESTABLISHED:ESTABLISHED" = true ->
  strings.Contains line (address ++ ":" ++ strconv.Itoa port) = true ->
  nth_error (strings.Fields line) 4 = Some (dhost ++ ":" ++ dport) ->
  net.has dhost ":" = false ->
  net.has dport ":" = false ->
  lookup address port (line ++ String "010" rest)
  = Return (dhost, convertPortToInt dport, None).
Proof.
  intros Hnl Htag Hkey Hf Hh Hp.
  unfold lookup. rewrite (Split_first line rest "010" Hnl).
  cbn [lookupLines]. rewrite Htag, Hkey.
  assert (Hlen : (4 <? List.length (strings.Fields line))%nat = true).
  { apply Nat.ltb_lt. apply nth_error_Some. now rewrite Hf. }
  rewrite Hlen, (index_nth_error _ _ _ Hf). cbn [bind].
  simpl append. rewrite (Split_first dhost dport ":" Hh), (Split_none dport ":" Hp).
  reflexivity.
Qed.

(** X2: the first line that is established, has the key in the colon
    form and a fifth field [host:port] decides the lookup, whatever
    follows it: the host, and the port as [convertPortToInt] reads
    it, without error. *)
Theorem lookup_first_colon_line
    (address : string) (port : Z) (line rest dhost dport : string) :
  net.has line "010" = false ->
  strings.Contains line "ESTABLISHED:ESTABLISHED" = true ->
  strings.Contains line (address ++ ":" ++ strconv.Itoa port) = true ->
  nth_error (strings.Fields line) 4 = Some (dhost ++ ":" ++ dport) ->
  net.has dhost ":" = false ->
  net.has dport ":" = false ->
  lookup address port (line ++ String "010" rest)
  = Return (dhost, convertPortToInt dport, None).
Proof. exact (lookup_colon_line address port line rest dhost dport). Qed.

Lemma lookup_first_colon_line_witness :
  lookup "10.0.0.7" 4242
    ("ALL tcp 10.0.0.7:4242 -> 93.184.216.34:8080 ESTABLISHED:ESTABLISHED"
     ++ String "010" line4)
  = Return ("93.184.216.34", convertPortToInt "8080", None).
Proof.
  apply (lookup_first_colon_line "10.0.0.7" 4242
           "ALL tcp 10.0.0.7:4242 -> 93.184.216.34:8080 ESTABLISHED:ESTABLISHED"
           line4 "93.184.216.34" "8080"); vm_compute; reflexivity.
Defined.

(** X3: the first line that is established, has the key in the
    bracket form only and a fifth field [host[port]...] decides the
    lookup: the host before the bracket and the port between the
    brackets, whatever follows the closing bracket and the line. *)
Theorem lookup_first_bracket_line
    (address : string) (port : Z) (line rest dhost dport tail : string) :
  net.has line "010" = false ->
  strings.Contains line "ESTABLISHED:ESTABLISHED" = true ->
  strings.Contains line (address ++ ":" ++ strconv.Itoa port) = false ->
  strings.Contains line (address ++ "[" ++ strconv.Itoa port ++ "]") = true ->
  nth_error (strings.Fields line) 4 = Some (dhost ++ "[" ++ dport ++ "]" ++ tail) ->
  net.has dhost "[" = false ->
  net.has dport "[" = false ->
  net.has dport "]" = false ->
  lookup address port (line ++ String "010" rest)
  = Return (dhost, convertPortToInt dport, None).
Proof.
  intros Hnl Htag Hno Hkey Hf Hh Hpo Hpc.
  unfold lookup. rewrite (Split_first line rest "010" Hnl).
  cbn [lookupLines]. rewrite Htag, Hno, Hkey.
  assert (Hlen : (4 <? List.length (strings.Fields line))%nat = true).
  { apply Nat.ltb_lt. apply nth_error_Some. now rewrite Hf. }
  rewrite Hlen, (index_nth_error _ _ _ Hf). cbn [bind].
  simpl append. rewrite (Split_first dhost _ "[" Hh).
  assert (Hport : net.has (dport ++ "]") "[" = false).
  { clear -Hpo. induction dport as [|d dport IH]; [reflexivity|].
    rewrite has_cons in Hpo. apply orb_false_elim in Hpo as [Hd Hpo].
    simpl append. rewrite has_cons, Hd. now apply IH. }
  destruct (Split_prefix (dport ++ "]") tail "[" Hport) as [x [xs [_ Hsplit]]].
  rewrite append_assoc in Hsplit. simpl append in Hsplit. rewrite Hsplit.
  cbn [index nth_error bind].
  rewrite append_assoc. simpl append.
  rewrite (Split_first dport x "]" Hpc). reflexivity.
Qed.

Lemma lookup_first_bracket_line_witness :
  lookup "2a01:e35::b733" 58505
    ("ALL tcp 2a01:e35::b733[58505] -> 2606:4700:30::681f:4ad0[8443]  ESTABLISHED:ESTABLISHED"
     ++ String "010" line6)
  = Return ("2606:4700:30::681f:4ad0", convertPortToInt "8443", None).
Proof.
  apply (lookup_first_bracket_line "2a01:e35::b733" 58505
           "ALL tcp 2a01:e35::b733[58505] -> 2606:4700:30::681f:4ad0[8443]  ESTABLISHED:ESTABLISHED"
           line6 "2606:4700:30::681f:4ad0" "8443" ""); vm_compute; reflexivity.
Defined.

Lemma lookupLines_panic (specv4 specv6 : string) (lines : list string) (v : string) :
  lookupLines specv4 specv6 lines = Panic v ->
  exists line f4,
    In line lines
    /\ strings.Contains line "ESTABLISHED:ESTABLISHED" = true
    /\ strings.Contains line specv4 = false
    /\ strings.Contains line specv6 = true
    /\ nth_error (strings.Fields line) 4 = Some f4
    /\ net.has f4 "[" = false.
Proof.
  induction lines as [|line rest IH]; [discriminate|].
  assert (Hrest : lookupLines specv4 specv6 rest = Panic v ->
                  exists line' f4,
                    In line' (line :: rest)
                    /\ strings.Contains line' "ESTABLISHED:ESTABLISHED" = true
                    /\ strings.Contains line' specv4 = false
                    /\ strings.Contains line' specv6 = true
                    /\ nth_error (strings.Fields line') 4 = Some f4
                    /\ net.has f4 "[" = false).
  { intros Hr. destruct (IH Hr) as [l [f4 [Hin Hl]]].
    exists l, f4. split; [now right | exact Hl]. }
  cbn [lookupLines].
  destruct (strings.Contains line "ESTABLISHED:ESTABLISHED") eqn:Htag; [|exact Hrest].
  destruct (strings.Contains line specv4) eqn:H4.
  - destruct (Nat.ltb_spec 4 (List.length (strings.Fields line))) as [Hlen|_];
      [|exact Hrest].
    apply nth_error_Some in Hlen.
    destruct (nth_error (strings.Fields line) 4) as [f4|] eqn:Hf; [|contradiction].
    rewrite (index_nth_error _ _ _ Hf). cbn [bind].
    destruct (strings.Split f4 ":") as [|a0 [|a1 [|a2 more]]]; try exact Hrest.
    cbn. discriminate.
  - destruct (strings.Contains line specv6) eqn:H6; [|exact Hrest].
    destruct (Nat.ltb_spec 4 (List.length (strings.Fields line))) as [Hlen|_];
      [|exact Hrest].
    apply nth_error_Some in Hlen.
    destruct (nth_error (strings.Fields line) 4) as [f4|] eqn:Hf; [|contradiction].
    rewrite (index_nth_error _ _ _ Hf). cbn [bind].
    destruct (nth_error (strings.Split f4 "[") 1) as [p1|] eqn:Hp1.
    + rewrite (index_nth_error _ _ _ Hp1). cbn [bind].
      pose proof (Split_nonempty p1 "]") as Hn1.
      pose proof (Split_nonempty f4 "[") as Hn0.
      destruct (strings.Split p1 "]") as [|n ns]; [contradiction|].
      destruct (strings.Split f4 "[") as [|p0 ps]; [contradiction|].
      cbn. discriminate.
    + intros _. exists line, f4.
      repeat split; try assumption; [now left | now apply Split_one_piece].
Qed.

(** X4: [lookup] panics in one way only: at a line that is
    established, has the key in the bracket form and not in the colon
    form, and whose fifth field has no opening bracket.  The indices of
    the colon branch, guarded by the two length tests, never fail. *)
Theorem lookup_panics_only_at_bracket_line
    (address : string) (port : Z) (s v : string) :
  lookup address port s = Panic v ->
  exists line f4,
    In line (strings.Split s "010")
    /\ strings.Contains line "ESTABLISHED:ESTABLISHED" = true
    /\ strings.Contains line (address ++ ":" ++ strconv.Itoa port) = false
    /\ strings.Contains line (address ++ "[" ++ strconv.Itoa port ++ "]") = true
    /\ nth_error (strings.Fields line) 4 = Some f4
    /\ net.has f4 "[" = false.
Proof. unfold lookup. apply lookupLines_panic. Qed.

Lemma lookup_panics_only_at_bracket_line_witness :
  exists line f4,
    In line (strings.Split
               ("ALL tcp 1.2.3.4:80 -> 5.6.7.8:443 CLOSED:CLOSED"
                ++ String "010" "ALL tcp 1.2.3.4[80] -> 5.6.7.8:443 ESTABLISHED:ESTABLISHED")
               "010")
    /\ strings.Contains line "ESTABLISHED:ESTABLISHED" = true
    /\ strings.Contains line ("1.2.3.4" ++ ":" ++ strconv.Itoa 80) = false
    /\ strings.Contains line ("1.2.3.4" ++ "[" ++ strconv.Itoa 80 ++ "]") = true
    /\ nth_error (strings.Fields line) 4 = Some f4
    /\ net.has f4 "[" = false.
Proof.
  apply (lookup_panics_only_at_bracket_line "1.2.3.4" 80
           ("ALL tcp 1.2.3.4:80 -> 5.6.7.8:443 CLOSED:CLOSED"
            ++ String "010" "ALL tcp 1.2.3.4[80] -> 5.6.7.8:443 ESTABLISHED:ESTABLISHED")
           "runtime error: index out of range").
  vm_compute. reflexivity.
Defined.

(** X5: and at such a line it does panic, when the line is the first
    of the table, whatever follows. *)
Theorem lookup_bracket_line_panics
    (address : string) (port : Z) (line rest f4 : string) :
  net.has line "010" = false ->
  strings.Contains line "ESTABLISHED:ESTABLISHED" = true ->
  strings.Contains line (address ++ ":" ++ strconv.Itoa port) = false ->
  strings.Contains line (address ++ "[" ++ strconv.Itoa port ++ "]") = true ->
  nth_error (strings.Fields line) 4 = Some f4 ->
  net.has f4 "[" = false ->
  lookup address port (line ++ String "010" rest)
  = Panic "runtime error: index out of range".
Proof.
  intros Hnl Htag Hno Hkey Hf Hb.
  unfold lookup. rewrite (Split_first line rest "010" Hnl).
  cbn [lookupLines]. rewrite Htag, Hno, Hkey.
  assert (Hlen : (4 <? List.length (strings.Fields line))%nat = true).
  { apply Nat.ltb_lt. apply nth_error_Some. now rewrite Hf. }
  rewrite Hlen, (index_nth_error _ _ _ Hf). cbn [bind].
  rewrite (Split_none f4 "[" Hb). reflexivity.
Qed.

Lemma lookup_bracket_line_panics_witness :
  lookup "::1" 80
    ("ALL tcp ::1[80] -> 127.0.0.1:8080 ESTABLISHED:ESTABLISHED" ++ String "010" line6)
  = Panic "runtime error: index out of range".
Proof.
  apply (lookup_bracket_line_panics "::1" 80
           "ALL tcp ::1[80] -> 127.0.0.1:8080 ESTABLISHED:ESTABLISHED" line6
           "127.0.0.1:8080"); vm_compute; reflexivity.
Defined.

Lemma lookupLines_result (specv4 specv6 : string) (lines : list string)
    (host : string) (port : Z) (err : option error) :
  lookupLines specv4 specv6 lines = Return (host, port, err) ->
  (err = None /\ (strconv.minInt <= port <= strconv.maxInt)%Z)
  \/ (host, port, err) = noDestination.
Proof.
  induction lines as [|line rest IH]; [intros [= <- <- <-]; now right|].
  cbn [lookupLines].
  destruct (strings.Contains line "ESTABLISHED:ESTABLISHED"); [|exact IH].
  destruct (strings.Contains line specv4).
  - destruct (4 <? List.length (strings.Fields line))%nat; [|exact IH].
    destruct (index (strings.Fields line) 4) as [f4|]; [|discriminate]. cbn [bind].
    destruct (List.length (strings.Split f4 ":") =? 2)%nat; [|exact IH].
    destruct (index (strings.Split f4 ":") 0); [|discriminate]. cbn [bind].
    destruct (index (strings.Split f4 ":") 1); [|discriminate]. cbn [bind].
    intros [= <- <- <-]. left. split; [reflexivity | apply Atoi_range].
  - destruct (strings.Contains line specv6); [|exact IH].
    destruct (4 <? List.length (strings.Fields line))%nat; [|exact IH].
    destruct (index (strings.Fields line) 4) as [f4|]; [|discriminate]. cbn [bind].
    destruct (index (strings.Split f4 "[") 1) as [p1|]; [|discriminate]. cbn [bind].
    destruct (index (strings.Split p1 "]") 0); [|discriminate]. cbn [bind].
    destruct (index (strings.Split f4 "[") 0); [|discriminate]. cbn [bind].
    intros [= <- <- <-]. left. split; [reflexivity | apply Atoi_range].
Qed.

(** X6: what [lookup] returns is a destination without error, its
    port within the range of [int] whatever digits the table holds, or
    the empty host, port 0 and the resolution error; never a host or a
    port together with an error. *)
Theorem lookup_result_shape
    (address : string) (port : Z) (s host : string) (p : Z) (err : option error) :
  lookup address port s = Return (host, p, err) ->
  (err = None /\ (- 2 ^ 63 <= p <= 2 ^ 63 - 1)%Z)
  \/ (host, p, err)
     = ("", 0%Z, Some (Errorf "could not resolve original destination")).
Proof. unfold lookup. intros H. exact (lookupLines_result _ _ _ _ _ _ H). Qed.

Lemma lookup_result_shape_witness :
  (None = @None error /\ (- 2 ^ 63 <= 9223372036854775807 <= 2 ^ 63 - 1)%Z)
  \/ ("23.205.82.58", 9223372036854775807%Z, @None error)
     = ("", 0%Z, Some (Errorf "could not resolve original destination")).
Proof.
  apply (lookup_result_shape "192.168.1.13" 57474
           "ALL tcp 192.168.1.13:57474 -> 23.205.82.58:99999999999999999999 ESTABLISHED:ESTABLISHED"
           "23.205.82.58" 9223372036854775807 None).
  vm_compute. reflexivity.
Defined.

(** X7: [convertPortToInt] reads back what [%d] printed: for every
    [int], the decimal text of the number converts to the number. *)
Theorem convertPortToInt_of_decimal (n : Z) :
  (- 2 ^ 63 <= n <= 2 ^ 63 - 1)%Z ->
  convertPortToInt (strconv.Itoa n) = n.
Proof.
  intros Hn. unfold convertPortToInt. now rewrite (Atoi_Itoa n Hn).
Qed.

Lemma convertPortToInt_of_decimal_witness :
  convertPortToInt (strconv.Itoa (-9223372036854775808)) = (-9223372036854775808)%Z.
Proof.
  apply (convertPortToInt_of_decimal (-9223372036854775808)).
  vm_compute. split; discriminate.
Defined.

Lemma LocalToRemote_host_port (host : string) (port : Z) (out : string) :
  net.has host ":" = false ->
  (- 2 ^ 63 <= port <= 2 ^ 63 - 1)%Z ->
  LocalToRemote (out, None) (host ++ ":" ++ strconv.Itoa port)
  = lookup host port out.
Proof.
  intros Hh Hp.
  rewrite LocalToRemote_key. unfold lookupKey. simpl append.
  rewrite (Split_first host _ ":" Hh), (Split_none _ ":" (Itoa_no_colon port)).
  cbn [index nth_error bind fst snd PfctlLookup].
  rewrite (Atoi_Itoa port Hp). cbn [fst].
  destruct (lookup host port out) as [[[h q] err]|v] eqn:Hl; [|reflexivity].
  cbn [bind]. destruct err as [e|]; [|reflexivity].
  unfold lookup in Hl.
  destruct (lookupLines_result _ _ _ _ _ _ Hl) as [[Hnone _]|Heq];
    [discriminate Hnone|].
  unfold noDestination in Heq. injection Heq as -> -> _. reflexivity.
Qed.

(** X8: for a remote address [host:port], the host free of colons and
    the port in decimal, and a state command that ran, [LocalToRemote]
    is [lookup] on the command's output with the key (host, port). *)
Theorem LocalToRemote_of_host_port (host : string) (port : Z) (out : string) :
  net.has host ":" = false ->
  (- 2 ^ 63 <= port <= 2 ^ 63 - 1)%Z ->
  LocalToRemote (out, None) (host ++ ":" ++ strconv.Itoa port)
  = lookup host port out.
Proof. exact (LocalToRemote_host_port host port out). Qed.

Lemma LocalToRemote_of_host_port_witness :
  LocalToRemote (line4, None) ("192.168.1.13" ++ ":" ++ strconv.Itoa 57474)
  = lookup "192.168.1.13" 57474 line4.
Proof.
  apply (LocalToRemote_of_host_port "192.168.1.13" 57474 line4).
  - reflexivity.
  - vm_compute. split; discriminate.
Defined.

(** X9: on a remote address without colon the index [sep[1]] is out
    of range: [LocalToRemote] panics before the state command runs. *)
Theorem LocalToRemote_without_colon_panics
    (pfctl : string * option error) (remote : string) :
  net.has remote ":" = false ->
  LocalToRemote pfctl remote = Panic "runtime error: index out of range".
Proof.
  intros Hr. unfold LocalToRemote. now rewrite (Split_none remote ":" Hr).
Qed.

Lemma LocalToRemote_without_colon_panics_witness :
  LocalToRemote (line4, None) "@" = Panic "runtime error: index out of range".
Proof.
  apply (LocalToRemote_without_colon_panics (line4, None) "@"). reflexivity.
Defined.

(** * Further properties of the handler *)

Section MoreHandlerFacts.

Context {http : HttpLib} {dissector : TlsDissector}.

Variable ipText : string -> string.

(** X10: the rate limiter is asked about the client's host without its
    port, and what the limiter found says decides; without limiter, or
    without one for the host, the connection is admitted.  For a remote
    address that does not split into host and port, the limiter is
    asked about the empty host. *)
Theorem checkRateLimit_key
    (h : redirectHandler) (network host port : string)
    (limiterFor : string -> option bool) :
  RateLimiter (options h) = Some limiterFor ->
  bare host = true -> bare port = true ->
  checkRateLimit h (net.mkAddr network (host ++ ":" ++ port))
  = match limiterFor host with Some allow => allow | None => true end
  /\ checkRateLimit h (net.mkAddr network host)
     = match limiterFor "" with Some allow => allow | None => true end.
Proof.
  intros Hl Hh Hp. unfold checkRateLimit. rewrite Hl. cbn [net.Text].
  now rewrite (SplitHostPort_join host port Hh Hp), (bare_no_port host Hh).
Qed.

(** X11: the rule by which [handleHTTP] gives the [Host] a port.  A
    host without colon or bracket followed by [:port] is dialled as it
    is; to such a host alone port 80 is joined, and the address then
    splits into the host and 80, so that the rule adds nothing more to
    it.  A [Host] with a colon that [net.SplitHostPort] refuses, as an
    IPv6 address without port is, bracketed or not, is put in brackets
    and given port 80. *)
Theorem httpHost_port_rule (host port : string) :
  bare host = true -> bare port = true ->
  httpHost (host ++ ":" ++ port) = host ++ ":" ++ port
  /\ net.SplitHostPort (httpHost host) = (host, "80", None)
  /\ httpHost (httpHost host) = httpHost host
  /\ forall literal : string,
       net.has literal ":" = true -> carriesPort literal = false ->
       httpHost literal = "[" ++ literal ++ "]:80".
Proof.
  intros Hh Hp.
  assert (H80 : httpHost host = host ++ ":" ++ "80").
  { apply httpHost_default_port. now destruct (bare_parts host Hh). }
  assert (Hjoin : forall p, bare p = true -> httpHost (host ++ ":" ++ p) = host ++ ":" ++ p).
  { intros p Hbp. unfold httpHost. now rewrite (SplitHostPort_join host p Hh Hbp). }
  split; [now apply Hjoin|]. rewrite H80. split; [|split].
  - now apply SplitHostPort_join.
  - now apply Hjoin.
  - intros literal Hcolon Hno. unfold httpHost, carriesPort in *.
    destruct (net.SplitHostPort literal) as [[a b] [e|]]; [|discriminate Hno].
    unfold net.JoinHostPort. now rewrite Hcolon.
Qed.

End MoreHandlerFacts.

Lemma checkRateLimit_key_witness :
  checkRateLimit
    (mkHandler anyRouter (mkMetadata false true)
       (mkOptions None (Some (fun host => if String.eqb host "192.168.1.13"
                                          then Some false else None))))
    (net.mkAddr "tcp" ("192.168.1.13" ++ ":" ++ "57474"))
  = false
  /\ checkRateLimit
       (mkHandler anyRouter (mkMetadata false true)
          (mkOptions None (Some (fun host => if String.eqb host "192.168.1.13"
                                             then Some false else None))))
       (net.mkAddr "tcp" "192.168.1.13")
     = true.
Proof.
  apply (checkRateLimit_key
           (mkHandler anyRouter (mkMetadata false true)
              (mkOptions None (Some (fun host => if String.eqb host "192.168.1.13"
                                                 then Some false else None))))
           "tcp" "192.168.1.13" "57474"
           (fun host => if String.eqb host "192.168.1.13" then Some false else None));
    reflexivity.
Defined.

Lemma httpHost_port_rule_witness :
  httpHost ("example.com" ++ ":" ++ "8080") = "example.com" ++ ":" ++ "8080"
  /\ net.SplitHostPort (httpHost "example.com") = ("example.com", "80", None)
  /\ httpHost (httpHost "example.com") = httpHost "example.com"
  /\ httpHost "[::1]" = "[" ++ "[::1]" ++ "]:80".
Proof.
  destruct (httpHost_port_rule "example.com" "8080" eq_refl eq_refl)
    as [Hport [Hsplit [Hagain Hliteral]]].
  split; [exact Hport|]. split; [exact Hsplit|]. split; [exact Hagain|].
  apply Hliteral; reflexivity.
Defined.

(** ** Runs of [Handle] *)

(** All the ways through [Handle], one goal each: the tests are
    decided from the inside out. *)
Ltac handle_paths :=
  unfold Handle, handleBody, dispatch, handleHTTPS, handleHTTP, relay,
    getServerName, io.read;
  repeat match goal with
         | |- context [match ?x with _ => _ end] =>
             lazymatch x with
             | context [match _ with _ => _ end] => fail
             | dials _ => fail
             | exchange _ => fail
             | transports _ => fail
             | _ => destruct x eqn:?
             end
         end.

Ltac use_router :=
  repeat match goal with
         | H : router _ _ _ = _ |- _ => rewrite H
         end.

Section Runs.

Context {http : HttpLib} {dissector : TlsDissector}.

Variable ipText : string -> string.
Variable pfctl : string * option error.

(** X12: whatever happens, the connection is closed once, and that is
    the last thing [Handle] does: on every return and on a panic of
    the resolver. *)
Theorem Handle_closes_connection_once (h : redirectHandler) (conn : Conn) :
  exists tr,
    fst (Handle ipText pfctl h conn) = (tr ++ [ConnClose])%list
    /\ ~ In ConnClose tr.
Proof.
  handle_paths;
    (eexists; split; [reflexivity|]);
    cbn; intuition discriminate.
Qed.

(** X13: [Handle] dials at most once.  The upstream connection is
    closed once when the dial succeeded and never otherwise; without a
    successful dial nothing is written to either side and nothing is
    relayed; and a failed dial is logged and is the error returned. *)
Theorem Handle_dial_discipline (h : redirectHandler) (conn : Conn) :
  let tr := fst (Handle ipText pfctl h conn) in
  match dials tr with
  | [] => upCloses tr = 0 /\ movesOctets tr = false
  | [(network, address)] =>
      match router h network address with
      | Ok _ => upCloses tr = 1
      | Failed e =>
          upCloses tr = 0 /\ movesOctets tr = false
          /\ In (LogError e) tr
          /\ snd (Handle ipText pfctl h conn) = Return (Some e)
      end
  | _ => False
  end.
Proof.
  handle_paths; cbn; use_router; cbn; auto 6.
Qed.

End Runs.

Section Paths.

Context {http : HttpLib} {dissector : TlsDissector}.

Variable ipText : string -> string.

(** X14: [Handle] panics only in state-table mode, for a client that
    passed the rate limit, and only out of the resolver: the remote
    address has no colon, or the state command failed, or [lookup]
    panicked.  Nothing but the close of the connection has then
    happened. *)
Theorem Handle_panics_only_in_resolver
    (pfctl : string * option error) (h : redirectHandler) (conn : Conn) (v : string) :
  snd (Handle ipText pfctl h conn) = Panic v ->
  tproxy (md h) = false
  /\ checkRateLimit h (RemoteAddr conn) = true
  /\ fst (Handle ipText pfctl h conn) = [ConnClose]
  /\ (net.has (net.Text (RemoteAddr conn)) ":" = false
      \/ snd pfctl <> None
      \/ exists host port, lookup host port (fst pfctl) = Panic v).
Proof.
  unfold Handle, handleBody, originalDst, getOriginalDstAddr.
  destruct (checkRateLimit h (RemoteAddr conn)); cbn [negb]; [|discriminate].
  destruct (tproxy (md h)).
  { destruct (dispatch h conn (LocalAddr conn)). discriminate. }
  destruct (LocalToRemote pfctl (net.Text (RemoteAddr conn))) as [[[host port] err]|w] eqn:Hl;
    cbn [bind].
  { destruct err; [discriminate|]. cbn.
    destruct (dispatch h conn _). discriminate. }
  cbn. intros [= ->]. repeat split.
  unfold LocalToRemote in Hl.
  destruct (nth_error (strings.Split (net.Text (RemoteAddr conn)) ":") 1) as [s1|] eqn:H1.
  - rewrite (index_nth_error _ _ _ H1) in Hl. cbn [bind] in Hl.
    pose proof (Split_nonempty (net.Text (RemoteAddr conn)) ":") as Hne.
    destruct (strings.Split (net.Text (RemoteAddr conn)) ":") as [|s0 ss]; [contradiction|].
    cbn [index nth_error bind] in Hl.
    destruct pfctl as [out [e|]]; [right; left; discriminate|].
    right. right. cbn [PfctlLookup fst] in *.
    destruct (lookup s0 (fst (strconv.Atoi s1)) out) as [[[a b] c]|w] eqn:Hlk.
    + cbn [bind] in Hl. destruct c; discriminate Hl.
    + cbn [bind] in Hl. injection Hl as ->. now exists s0, (fst (strconv.Atoi s1)).
  - left. now apply Split_one_piece.
Qed.

(** X15: on the TLS path the upstream gets the whole stream of the
    client, the ClientHello that was read for its server name
    included, in order: the transport's client side delivers exactly
    the input. *)
Theorem Handle_tls_relays_whole_stream
    (pfctl : string * option error) (h : redirectHandler) (conn : Conn)
    (dstAddr : net.Addr) (host : string) (cc : Upstream) :
  checkRateLimit h (RemoteAddr conn) = true ->
  originalDst ipText pfctl h conn = Return (Ok dstAddr) ->
  sniffing (md h) = true ->
  beginsWithHandshakeHeader (input conn) = true ->
  snd (getServerName (input conn)) = Ok host ->
  bypassed h (httpsHost host dstAddr) = false ->
  router h "tcp" (httpsHost host dstAddr) = Ok cc ->
  Handle ipText pfctl h conn
  = ([Dial "tcp" (httpsHost host dstAddr);
      Transport (mkTransport (input conn) (reply cc)); UpClose; ConnClose],
     Return None).
Proof.
  intros Hrate Hdst Hsniff Htls Hname Hbypass Hdial.
  assert (Hlen : RecordHeaderLen <= String.length (input conn)).
  { unfold beginsWithHandshakeHeader in Htls.
    destruct (Nat.leb_spec RecordHeaderLen (String.length (input conn)));
      [assumption | discriminate Htls]. }
  unfold Handle, handleBody. rewrite Hrate, Hdst. cbn [negb].
  unfold dispatch. rewrite Hsniff, (sniff_whole_header _ Hlen), Htls.
  unfold handleHTTPS. rewrite take_drop.
  destruct (getServerName (input conn)) as [n r]. cbn [snd] in Hname. subst r.
  pose proof (read_replay n (io.take RecordHeaderLen (input conn))
                (io.drop RecordHeaderLen (input conn))) as Hreplay.
  destruct (io.read n _ _) as [[buf front] live].
  rewrite take_drop, append_assoc in Hreplay.
  now rewrite Hbypass, Hdial, Hreplay.
Qed.

(** X16: without sniffing, and with sniffing on a stream that fills
    the header array and is neither TLS nor HTTP, the original
    destination is dialled on its own network and the transport's
    client side delivers exactly the input. *)
Theorem Handle_opaque_relays_input
    (pfctl : string * option error) (h : redirectHandler) (conn : Conn)
    (dstAddr : net.Addr) (cc : Upstream) :
  checkRateLimit h (RemoteAddr conn) = true ->
  originalDst ipText pfctl h conn = Return (Ok dstAddr) ->
  sniffing (md h) = false
  \/ (RecordHeaderLen <= String.length (input conn)
      /\ beginsWithHandshakeHeader (input conn) = false
      /\ parsesAsRequest (input conn) = false) ->
  bypassed h (net.Text dstAddr) = false ->
  router h (net.Network dstAddr) (net.Text dstAddr) = Ok cc ->
  Handle ipText pfctl h conn
  = ([Dial (net.Network dstAddr) (net.Text dstAddr);
      Transport (mkTransport (input conn) (reply cc)); UpClose; ConnClose],
     Return None).
Proof.
  intros Hrate Hdst Hpath Hbypass Hdial.
  unfold Handle, handleBody. rewrite Hrate, Hdst. cbn [negb].
  unfold dispatch.
  destruct Hpath as [Hoff | [Hlen [Htls Hparse]]].
  - rewrite Hoff. unfold relay. now rewrite Hbypass, Hdial.
  - destruct (sniffing (md h)); [|unfold relay; now rewrite Hbypass, Hdial].
    rewrite (sniff_whole_header _ Hlen), Htls.
    unfold parsesAsRequest in Hparse.
    destruct (ReadRequest (input conn)) as [n r]. cbn [snd] in Hparse.
    pose proof (read_replay n (io.take RecordHeaderLen (input conn))
                  (io.drop RecordHeaderLen (input conn))) as Hreplay.
    destruct (io.read n _ _) as [[buf front] live].
    rewrite take_drop in Hreplay.
    destruct r; [discriminate Hparse|].
    unfold relay. now rewrite Hbypass, Hdial, Hreplay.
Qed.

(** X17: what [handleHTTP] parses is what the sniffer parsed: on the
    HTTP path the second [http.ReadRequest] reads the same octets (the
    input, with the zeros of a short read) and gives a request again,
    so the handler's return of a parse error is never taken there. *)
Theorem sniff_http_request_parses_again (s front live : string) :
  sniff s = (HTTP, front, live) ->
  front ++ live = s ++ io.zeros (RecordHeaderLen - String.length s)
  /\ exists req, snd (ReadRequest (front ++ live)) = Ok req.
Proof.
  intros Hs.
  pose proof (sniff_delivers s) as Hd. unfold delivered in Hd. rewrite Hs in Hd.
  split; [exact Hd|]. rewrite Hd.
  unfold sniff, io.ReadFull in Hs.
  unfold io.read at 1 in Hs. cbn [append String.length] in Hs.
  rewrite drop_empty, Nat.sub_0_r, append_empty in Hs.
  rewrite header_replay in Hs.
  destruct (isTLS _ _); [discriminate Hs|].
  destruct (ReadRequest (s ++ io.zeros (RecordHeaderLen - String.length s))) as [n r].
  destruct (io.read n _ _) as [[buf front2] live2].
  destruct r as [req|e]; [|discriminate Hs].
  now exists req.
Qed.

(** X18: a stream that ends before it fills the header array is never
    taken for TLS, whatever its octets; it is HTTP or opaque as the
    parser decides on the stream followed by the zeros of the array. *)
Theorem sniff_short_stream (s : string) :
  String.length s < RecordHeaderLen ->
  fst (fst (sniff s))
  = if parsesAsRequest (s ++ io.zeros (RecordHeaderLen - String.length s))
    then HTTP else Opaque.
Proof.
  intros Hlt. unfold sniff.
  pose proof (isTLS_header s) as Htls.
  pose proof (header_replay RecordHeaderLen s) as Hhdr.
  unfold io.ReadFull in *. unfold io.read at 1 in Htls. unfold io.read at 1.
  cbn [append String.length] in *.
  rewrite drop_empty, Nat.sub_0_r, append_empty.
  rewrite Htls. unfold beginsWithHandshakeHeader.
  destruct (Nat.leb_spec RecordHeaderLen (String.length s)); [lia|]. cbn [andb].
  rewrite Hhdr. unfold parsesAsRequest.
  destruct (ReadRequest (s ++ io.zeros (RecordHeaderLen - String.length s))) as [n r].
  destruct (io.read n _ _) as [[buf front2] live2].
  destruct r; reflexivity.
Qed.

(** X19: in state-table mode, for a client [host:port] and a state
    command that ran, a table with no established line matching the
    client ends the connection with the resolution error, logged and
    returned; nothing is dialled. *)
Theorem Handle_resolution_error
    (h : redirectHandler) (conn : Conn) (host : string) (port : Z) (out : string) :
  tproxy (md h) = false ->
  checkRateLimit h (RemoteAddr conn) = true ->
  net.Text (RemoteAddr conn) = host ++ ":" ++ strconv.Itoa port ->
  net.has host ":" = false ->
  (- 2 ^ 63 <= port <= 2 ^ 63 - 1)%Z ->
  (forall line, In line (strings.Split out "010") ->
     established line && matchesKey host port line = false) ->
  Handle ipText (out, None) h conn
  = ([LogError (Errorf "could not resolve original destination"); ConnClose],
     Return (Some (Errorf "could not resolve original destination"))).
Proof.
  intros Hmode Hrate Hremote Hhost Hport Hno.
  unfold Handle, handleBody, originalDst, getOriginalDstAddr.
  rewrite Hrate, Hmode, Hremote. cbn [negb].
  rewrite (LocalToRemote_host_port host port out Hhost Hport).
  unfold lookup. rewrite (lookupLines_no_match _ _ _ Hno). reflexivity.
Qed.

(** X20: in state-table mode without sniffing, for a client
    [host:port] whose line is the first of the table, the handler dials
    the destination of that line, the host as [net.ParseIP] prints it
    and the port in decimal, and relays the input to it. *)
Theorem Handle_resolves_client
    (h : redirectHandler) (conn : Conn) (host : string) (port : Z)
    (line rest dhost dport : string) (cc : Upstream) :
  tproxy (md h) = false ->
  sniffing (md h) = false ->
  checkRateLimit h (RemoteAddr conn) = true ->
  net.Text (RemoteAddr conn) = host ++ ":" ++ strconv.Itoa port ->
  net.has host ":" = false ->
  (- 2 ^ 63 <= port <= 2 ^ 63 - 1)%Z ->
  net.has line "010" = false ->
  strings.Contains line "ESTABLISHED:ESTABLISHED" = true ->
  strings.Contains line (host ++ ":" ++ strconv.Itoa port) = true ->
  nth_error (strings.Fields line) 4 = Some (dhost ++ ":" ++ dport) ->
  net.has dhost ":" = false ->
  net.has dport ":" = false ->
  let dst := net.JoinHostPort (ipText dhost) (strconv.Itoa (convertPortToInt dport)) in
  bypassed h dst = false ->
  router h "tcp" dst = Ok cc ->
  Handle ipText (line ++ String "010" rest, None) h conn
  = ([Dial "tcp" dst; Transport (mkTransport (input conn) (reply cc));
      UpClose; ConnClose], Return None).
Proof.
  intros Hmode Hsniff Hrate Hremote Hhost Hport Hnl Htag Hkey Hf Hdh Hdp dst Hbypass Hdial.
  unfold Handle, handleBody, originalDst, getOriginalDstAddr.
  rewrite Hrate, Hmode, Hremote. cbn [negb].
  rewrite (LocalToRemote_host_port host port _ Hhost Hport).
  rewrite (lookup_colon_line host port line rest dhost dport Hnl Htag Hkey Hf Hdh Hdp).
  cbn [bind]. unfold dispatch. rewrite Hsniff. unfold relay, net.TCPAddr.
  cbn [net.Text net.Network]. fold dst. now rewrite Hbypass, Hdial.
Qed.

End Paths.

(** ** The further properties on sample runs *)

Lemma Handle_panics_only_in_resolver_witness :
  tproxy (md (sampleHandler false true None)) = false
  /\ checkRateLimit (sampleHandler false true None) (RemoteAddr (sampleConn minimalGet)) = true
  /\ fst (Handle idText (line4, Some (Errorf "exit status 1"))
            (sampleHandler false true None) (sampleConn minimalGet)) = [ConnClose]
  /\ (net.has (net.Text (RemoteAddr (sampleConn minimalGet))) ":" = false
      \/ snd (line4, Some (Errorf "exit status 1")) <> None
      \/ exists host port,
           lookup host port (fst (line4, Some (Errorf "exit status 1")))
           = Panic "exit status 1").
Proof.
  apply (Handle_panics_only_in_resolver idText (line4, Some (Errorf "exit status 1"))
           (sampleHandler false true None) (sampleConn minimalGet) "exit status 1").
  reflexivity.
Defined.

Lemma Handle_tls_relays_whole_stream_witness :
  Handle idText (line4, None) (sampleHandler false true None)
    (sampleConn (tlsdissector.record (tlsdissector.clientHello (Some "example.com"))
                 ++ "application data"))
  = ([Dial "tcp" "example.com:443";
      Transport (mkTransport
                   (tlsdissector.record (tlsdissector.clientHello (Some "example.com"))
                    ++ "application data")
                   okResponse);
      UpClose; ConnClose], Return None).
Proof.
  apply (Handle_tls_relays_whole_stream idText (line4, None)
           (sampleHandler false true None)
           (sampleConn (tlsdissector.record (tlsdissector.clientHello (Some "example.com"))
                        ++ "application data"))
           (net.TCPAddr "23.205.82.58" 443) "example.com" (mkUpstream okResponse None));
    vm_compute; reflexivity.
Defined.

Lemma Handle_opaque_relays_input_witness :
  Handle idText (line4, None) (sampleHandler false true None)
    (sampleConn "SSH-2.0-OpenSSH_9.6")
  = ([Dial "tcp" "23.205.82.58:443";
      Transport (mkTransport "SSH-2.0-OpenSSH_9.6" okResponse);
      UpClose; ConnClose], Return None).
Proof.
  apply (Handle_opaque_relays_input idText (line4, None)
           (sampleHandler false true None) (sampleConn "SSH-2.0-OpenSSH_9.6")
           (net.TCPAddr "23.205.82.58" 443) (mkUpstream okResponse None)).
  - reflexivity.
  - vm_compute. reflexivity.
  - right. split; [vm_compute; lia|]. split; vm_compute; reflexivity.
  - reflexivity.
  - reflexivity.
Defined.

Lemma sniff_http_request_parses_again_witness :
  minimalGet ++ "" = minimalGet ++ io.zeros (RecordHeaderLen - String.length minimalGet)
  /\ exists req, snd (ReadRequest (minimalGet ++ "")) = Ok req.
Proof.
  apply (sniff_http_request_parses_again minimalGet minimalGet "").
  vm_compute. reflexivity.
Defined.

Lemma sniff_short_stream_witness :
  fst (fst (sniff (strings.octets [22; 3; 1]))) = Opaque.
Proof.
  refine (eq_trans (sniff_short_stream (strings.octets [22; 3; 1]) _) _).
  - vm_compute. lia.
  - vm_compute. reflexivity.
Defined.

Lemma Handle_resolution_error_witness :
  Handle idText
    ("ALL tcp 10.0.0.7:57474 -> 23.205.82.58:443       ESTABLISHED:ESTABLISHED", None)
    (sampleHandler false true None) (sampleConn minimalGet)
  = ([LogError (Errorf "could not resolve original destination"); ConnClose],
     Return (Some (Errorf "could not resolve original destination"))).
Proof.
  apply (Handle_resolution_error idText (sampleHandler false true None)
           (sampleConn minimalGet) "192.168.1.13" 57474).
  - reflexivity.
  - reflexivity.
  - vm_compute. reflexivity.
  - reflexivity.
  - vm_compute. split; discriminate.
  - simpl strings.Split. intros line [<-|[]]. vm_compute. reflexivity.
Defined.

Lemma Handle_resolves_client_witness :
  Handle idText (line4 ++ String "010" "", None) (sampleHandler false false None)
    (sampleConn "hello")
  = ([Dial "tcp" "23.205.82.58:443"; Transport (mkTransport "hello" okResponse);
      UpClose; ConnClose], Return None).
Proof.
  apply (Handle_resolves_client idText (sampleHandler false false None)
           (sampleConn "hello") "192.168.1.13" 57474 line4 "" "23.205.82.58" "443"
           (mkUpstream okResponse None)).
  - reflexivity.
  - reflexivity.
  - reflexivity.
  - vm_compute. reflexivity.
  - reflexivity.
  - vm_compute. split; discriminate.
  - vm_compute. reflexivity.
  - vm_compute. reflexivity.
  - vm_compute. reflexivity.
  - vm_compute. reflexivity.
  - reflexivity.
  - reflexivity.
  - reflexivity.
  - reflexivity.
Defined.

(** ** Keys as substrings *)

Lemma HasPrefix_append (s a b : string) :
  strings.HasPrefix s (a ++ b) = true ->
  strings.HasPrefix s a = true
  /\ strings.HasPrefix (io.drop (String.length a) s) b = true.
Proof.
  revert s. induction a as [|c a IH]; intros s H.
  - split; [now destruct s | exact H].
  - destruct s as [|d s]; [discriminate H|].
    simpl in H. apply andb_true_iff in H as [Hc H].
    destruct (IH s H) as [Ha Hb]. simpl. now rewrite Hc, Ha.
Qed.

Lemma Contains_drop (n : nat) (s b : string) :
  strings.Contains (io.drop n s) b = true -> strings.Contains s b = true.
Proof.
  revert s. induction n as [|n IH]; intros s H; [now destruct s|].
  destruct s as [|c s]; [exact H|].
  cbn [io.drop] in H. cbn [strings.Contains]. rewrite (IH s H). apply orb_true_r.
Qed.

Lemma Contains_HasPrefix (s b : string) :
  strings.HasPrefix s b = true -> strings.Contains s b = true.
Proof. intros H. destruct s; cbn [strings.Contains]; now rewrite H. Qed.

Lemma HasPrefix_middle (s pre mid post : string) :
  strings.HasPrefix s (pre ++ mid ++ post) = true ->
  strings.Contains s mid = true.
Proof.
  intros H.
  destruct (HasPrefix_append _ _ _ H) as [_ H1].
  destruct (HasPrefix_append _ _ _ H1) as [H2 _].
  apply (Contains_drop (String.length pre)). now apply Contains_HasPrefix.
Qed.

Lemma Contains_cons (c : ascii) (s b : string) :
  strings.Contains s b = true -> strings.Contains (String c s) b = true.
Proof. intros H. cbn [strings.Contains]. rewrite H. apply orb_true_r. Qed.

(** A text that occurs in the line with something before and after
    it occurs in the line. *)
Lemma Contains_middle (line pre mid post : string) :
  strings.Contains line (pre ++ mid ++ post) = true ->
  strings.Contains line mid = true.
Proof.
  induction line as [|c line IH]; intros H; cbn [strings.Contains] in H.
  - rewrite orb_false_r in H. exact (HasPrefix_middle _ _ _ _ H).
  - apply orb_true_iff in H as [H|H].
    + exact (HasPrefix_middle _ _ _ _ H).
    + apply Contains_cons. exact (IH H).
Qed.

(** X21: the key is looked for as a text anywhere in the line, not as
    the source of the connection.  A line whose source has more before
    the key's address or more digits after the key's port decides the
    lookup for the key just the same. *)
Theorem lookup_takes_line_of_longer_key
    (address : string) (port : Z) (line rest dhost dport pre post : string) :
  net.has line "010" = false ->
  strings.Contains line "ESTABLISHED:ESTABLISHED" = true ->
  strings.Contains line (pre ++ (address ++ ":" ++ strconv.Itoa port) ++ post) = true ->
  nth_error (strings.Fields line) 4 = Some (dhost ++ ":" ++ dport) ->
  net.has dhost ":" = false ->
  net.has dport ":" = false ->
  lookup address port (line ++ String "010" rest)
  = Return (dhost, convertPortToInt dport, None).
Proof.
  intros Hnl Htag Hkey Hf Hh Hp.
  apply lookup_colon_line; try assumption.
  exact (Contains_middle _ _ _ _ Hkey).
Qed.

Lemma lookup_takes_line_of_longer_key_witness :
  lookup "2.168.1.13" 5747 (line4 ++ String "010" "")
  = Return ("23.205.82.58", convertPortToInt "443", None).
Proof.
  apply (lookup_takes_line_of_longer_key "2.168.1.13" 5747 line4 ""
           "23.205.82.58" "443" "ALL tcp 19" "4"); vm_compute; reflexivity.
Defined.

Section Exchanges.

Context {http : HttpLib} {dissector : TlsDissector}.

Variable ipText : string -> string.
Variable pfctl : string * option error.

(** X22: a run is one exchange or one transport, never both and never
    more: at most one request is written to the upstream, at most one
    response to the client, the response only after the request; or
    the transport runs once and nothing is written. *)
Theorem Handle_single_exchange (h : redirectHandler) (conn : Conn) :
  let tr := fst (Handle ipText pfctl h conn) in
  match exchange tr, transports tr with
  | [], [] => True
  | [], [_] => True
  | [inl _], [] => True
  | [inl _; inr _], [] => True
  | _, _ => False
  end.
Proof.
  handle_paths; cbn; exact I.
Qed.

(** X23: an error that [Handle] logs is the error it returns. *)
Theorem Handle_returns_logged_error
    (h : redirectHandler) (conn : Conn) (e : error) :
  In (LogError e) (fst (Handle ipText pfctl h conn)) ->
  snd (Handle ipText pfctl h conn) = Return (Some e).
Proof.
  handle_paths; cbn; intros Hin;
    repeat match goal with
           | H : _ \/ _ |- _ => destruct H as [H|H]
           | H : False |- _ => destruct H
           | H : LogError _ = LogError _ |- _ => injection H as ->
           | H : _ = LogError _ |- _ => discriminate H
           end; reflexivity.
Qed.

End Exchanges.

Lemma Handle_returns_logged_error_witness :
  snd (Handle idText (line4, None) (sampleHandler false true None)
         (sampleConn (tlsdissector.record "garbage")))
  = Return (Some tlsdissector.ErrBadType).
Proof.
  apply (Handle_returns_logged_error idText (line4, None) (sampleHandler false true None)
           (sampleConn (tlsdissector.record "garbage")) tlsdissector.ErrBadType).
  vm_compute. left. reflexivity.
Defined.
